(** * Oracle-text tokenizer, vocabulary and sliding windows

    A shallow embedding of the code cell of [mtg_oracle_text.ipynb]:
    [remove_parentheses], [remove_punctuation], [clean_oracle_text], the
    generators [no_card_names] and [cleaned], the loop that fills
    [bag_of_words], [vectorize] and [windows].

    A Python [str] is a sequence of Unicode code points: a character is
    an [N], a text is a [list N].  The predicates [str.isspace],
    [str.isalnum] and [str.isupper] and the mapping [str.lower] are those
    of CPython 3.11 (Unicode 14.0), given by the tables of its character
    database.  Python [int]s are [Z]; the dictionary [bag_of_words] is a
    [gmap (list N) Z]. *)

From Stdlib Require Import ZArith NArith Ascii.
From stdpp Require Import gmap strings list fin_maps.

Local Open Scope Z_scope.

(** ** Characters *)

(** [ord(c)] for a character written as a literal. *)
Definition ord (a : ascii) : N := N_of_ascii a.

Arguments ord a%_char.

(** The text of a literal whose characters are all ASCII. *)
Fixpoint str (s : string) : list N :=
  match s with
  | EmptyString => []
  | String a s' => ord a :: str s'
  end.

(** Membership in a table of ranges [(lo, hi)], sorted by [lo]: the
    search ends at the first range that begins above [c]. *)
Fixpoint in_ranges (t : list (N * N)) (c : N) : bool :=
  match t with
  | [] => false
  | (lo, hi) :: t' =>
      if (c <? lo)%N then false
      else if (c <=? hi)%N then true
      else in_ranges t' c
  end.

(** The code points for which [str.isspace] holds. *)
Definition space_ranges : list (N * N) :=
  [
   (9, 13); (28, 32); (133, 133); (160, 160); (5760, 5760); (8192, 8202);
   (8232, 8233); (8239, 8239); (8287, 8287); (12288, 12288)
  ]%N.

(** The code points for which [str.isalnum] holds. *)
Definition alnum_ranges : list (N * N) :=
  [
   (48, 57); (65, 90); (97, 122); (170, 170); (178, 179); (181, 181); (185,
   186); (188, 190); (192, 214); (216, 246); (248, 705); (710, 721); (736,
   740); (748, 748); (750, 750); (880, 884); (886, 887); (890, 893); (895,
   895); (902, 902); (904, 906); (908, 908); (910, 929); (931, 1013); (1015,
   1153); (1162, 1327); (1329, 1366); (1369, 1369); (1376, 1416); (1488,
   1514); (1519, 1522); (1568, 1610); (1632, 1641); (1646, 1647); (1649,
   1747); (1749, 1749); (1765, 1766); (1774, 1788); (1791, 1791); (1808,
   1808); (1810, 1839); (1869, 1957); (1969, 1969); (1984, 2026); (2036,
   2037); (2042, 2042); (2048, 2069); (2074, 2074); (2084, 2084); (2088,
   2088); (2112, 2136); (2144, 2154); (2160, 2183); (2185, 2190); (2208,
   2249); (2308, 2361); (2365, 2365); (2384, 2384); (2392, 2401); (2406,
   2415); (2417, 2432); (2437, 2444); (2447, 2448); (2451, 2472); (2474,
   2480); (2482, 2482); (2486, 2489); (2493, 2493); (2510, 2510); (2524,
   2525); (2527, 2529); (2534, 2545); (2548, 2553); (2556, 2556); (2565,
   2570); (2575, 2576); (2579, 2600); (2602, 2608); (2610, 2611); (2613,
   2614); (2616, 2617); (2649, 2652); (2654, 2654); (2662, 2671); (2674,
   2676); (2693, 2701); (2703, 2705); (2707, 2728); (2730, 2736); (2738,
   2739); (2741, 2745); (2749, 2749); (2768, 2768); (2784, 2785); (2790,
   2799); (2809, 2809); (2821, 2828); (2831, 2832); (2835, 2856); (2858,
   2864); (2866, 2867); (2869, 2873); (2877, 2877); (2908, 2909); (2911,
   2913); (2918, 2927); (2929, 2935); (2947, 2947); (2949, 2954); (2958,
   2960); (2962, 2965); (2969, 2970); (2972, 2972); (2974, 2975); (2979,
   2980); (2984, 2986); (2990, 3001); (3024, 3024); (3046, 3058); (3077,
   3084); (3086, 3088); (3090, 3112); (3114, 3129); (3133, 3133); (3160,
   3162); (3165, 3165); (3168, 3169); (3174, 3183); (3192, 3198); (3200,
   3200); (3205, 3212); (3214, 3216); (3218, 3240); (3242, 3251); (3253,
   3257); (3261, 3261); (3293, 3294); (3296, 3297); (3302, 3311); (3313,
   3314); (3332, 3340); (3342, 3344); (3346, 3386); (3389, 3389); (3406,
   3406); (3412, 3414); (3416, 3425); (3430, 3448); (3450, 3455); (3461,
   3478); (3482, 3505); (3507, 3515); (3517, 3517); (3520, 3526); (3558,
   3567); (3585, 3632); (3634, 3635); (3648, 3654); (3664, 3673); (3713,
   3714); (3716, 3716); (3718, 3722); (3724, 3747); (3749, 3749); (3751,
   3760); (3762, 3763); (3773, 3773); (3776, 3780); (3782, 3782); (3792,
   3801); (3804, 3807); (3840, 3840); (3872, 3891); (3904, 3911); (3913,
   3948); (3976, 3980); (4096, 4138); (4159, 4169); (4176, 4181); (4186,
   4189); (4193, 4193); (4197, 4198); (4206, 4208); (4213, 4225); (4238,
   4238); (4240, 4249); (4256, 4293); (4295, 4295); (4301, 4301); (4304,
   4346); (4348, 4680); (4682, 4685); (4688, 4694); (4696, 4696); (4698,
   4701); (4704, 4744); (4746, 4749); (4752, 4784); (4786, 4789); (4792,
   4798); (4800, 4800); (4802, 4805); (4808, 4822); (4824, 4880); (4882,
   4885); (4888, 4954); (4969, 4988); (4992, 5007); (5024, 5109); (5112,
   5117); (5121, 5740); (5743, 5759); (5761, 5786); (5792, 5866); (5870,
   5880); (5888, 5905); (5919, 5937); (5952, 5969); (5984, 5996); (5998,
   6000); (6016, 6067); (6103, 6103); (6108, 6108); (6112, 6121); (6128,
   6137); (6160, 6169); (6176, 6264); (6272, 6276); (6279, 6312); (6314,
   6314); (6320, 6389); (6400, 6430); (6470, 6509); (6512, 6516); (6528,
   6571); (6576, 6601); (6608, 6618); (6656, 6678); (6688, 6740); (6784,
   6793); (6800, 6809); (6823, 6823); (6917, 6963); (6981, 6988); (6992,
   7001); (7043, 7072); (7086, 7141); (7168, 7203); (7232, 7241); (7245,
   7293); (7296, 7304); (7312, 7354); (7357, 7359); (7401, 7404); (7406,
   7411); (7413, 7414); (7418, 7418); (7424, 7615); (7680, 7957); (7960,
   7965); (7968, 8005); (8008, 8013); (8016, 8023); (8025, 8025); (8027,
   8027); (8029, 8029); (8031, 8061); (8064, 8116); (8118, 8124); (8126,
   8126); (8130, 8132); (8134, 8140); (8144, 8147); (8150, 8155); (8160,
   8172); (8178, 8180); (8182, 8188); (8304, 8305); (8308, 8313); (8319,
   8329); (8336, 8348); (8450, 8450); (8455, 8455); (8458, 8467); (8469,
   8469); (8473, 8477); (8484, 8484); (8486, 8486); (8488, 8488); (8490,
   8493); (8495, 8505); (8508, 8511); (8517, 8521); (8526, 8526); (8528,
   8585); (9312, 9371); (9450, 9471); (10102, 10131); (11264, 11492);
   (11499, 11502); (11506, 11507); (11517, 11517); (11520, 11557); (11559,
   11559); (11565, 11565); (11568, 11623); (11631, 11631); (11648, 11670);
   (11680, 11686); (11688, 11694); (11696, 11702); (11704, 11710); (11712,
   11718); (11720, 11726); (11728, 11734); (11736, 11742); (11823, 11823);
   (12293, 12295); (12321, 12329); (12337, 12341); (12344, 12348); (12353,
   12438); (12445, 12447); (12449, 12538); (12540, 12543); (12549, 12591);
   (12593, 12686); (12690, 12693); (12704, 12735); (12784, 12799); (12832,
   12841); (12872, 12879); (12881, 12895); (12928, 12937); (12977, 12991);
   (13312, 19903); (19968, 42124); (42192, 42237); (42240, 42508); (42512,
   42539); (42560, 42606); (42623, 42653); (42656, 42735); (42775, 42783);
   (42786, 42888); (42891, 42954); (42960, 42961); (42963, 42963); (42965,
   42969); (42994, 43009); (43011, 43013); (43015, 43018); (43020, 43042);
   (43056, 43061); (43072, 43123); (43138, 43187); (43216, 43225); (43250,
   43255); (43259, 43259); (43261, 43262); (43264, 43301); (43312, 43334);
   (43360, 43388); (43396, 43442); (43471, 43481); (43488, 43492); (43494,
   43518); (43520, 43560); (43584, 43586); (43588, 43595); (43600, 43609);
   (43616, 43638); (43642, 43642); (43646, 43695); (43697, 43697); (43701,
   43702); (43705, 43709); (43712, 43712); (43714, 43714); (43739, 43741);
   (43744, 43754); (43762, 43764); (43777, 43782); (43785, 43790); (43793,
   43798); (43808, 43814); (43816, 43822); (43824, 43866); (43868, 43881);
   (43888, 44002); (44016, 44025); (44032, 55203); (55216, 55238); (55243,
   55291); (63744, 64109); (64112, 64217); (64256, 64262); (64275, 64279);
   (64285, 64285); (64287, 64296); (64298, 64310); (64312, 64316); (64318,
   64318); (64320, 64321); (64323, 64324); (64326, 64433); (64467, 64829);
   (64848, 64911); (64914, 64967); (65008, 65019); (65136, 65140); (65142,
   65276); (65296, 65305); (65313, 65338); (65345, 65370); (65382, 65470);
   (65474, 65479); (65482, 65487); (65490, 65495); (65498, 65500); (65536,
   65547); (65549, 65574); (65576, 65594); (65596, 65597); (65599, 65613);
   (65616, 65629); (65664, 65786); (65799, 65843); (65856, 65912); (65930,
   65931); (66176, 66204); (66208, 66256); (66273, 66299); (66304, 66339);
   (66349, 66378); (66384, 66421); (66432, 66461); (66464, 66499); (66504,
   66511); (66513, 66517); (66560, 66717); (66720, 66729); (66736, 66771);
   (66776, 66811); (66816, 66855); (66864, 66915); (66928, 66938); (66940,
   66954); (66956, 66962); (66964, 66965); (66967, 66977); (66979, 66993);
   (66995, 67001); (67003, 67004); (67072, 67382); (67392, 67413); (67424,
   67431); (67456, 67461); (67463, 67504); (67506, 67514); (67584, 67589);
   (67592, 67592); (67594, 67637); (67639, 67640); (67644, 67644); (67647,
   67669); (67672, 67702); (67705, 67742); (67751, 67759); (67808, 67826);
   (67828, 67829); (67835, 67867); (67872, 67897); (67968, 68023); (68028,
   68047); (68050, 68096); (68112, 68115); (68117, 68119); (68121, 68149);
   (68160, 68168); (68192, 68222); (68224, 68255); (68288, 68295); (68297,
   68324); (68331, 68335); (68352, 68405); (68416, 68437); (68440, 68466);
   (68472, 68497); (68521, 68527); (68608, 68680); (68736, 68786); (68800,
   68850); (68858, 68899); (68912, 68921); (69216, 69246); (69248, 69289);
   (69296, 69297); (69376, 69415); (69424, 69445); (69457, 69460); (69488,
   69505); (69552, 69579); (69600, 69622); (69635, 69687); (69714, 69743);
   (69745, 69746); (69749, 69749); (69763, 69807); (69840, 69864); (69872,
   69881); (69891, 69926); (69942, 69951); (69956, 69956); (69959, 69959);
   (69968, 70002); (70006, 70006); (70019, 70066); (70081, 70084); (70096,
   70106); (70108, 70108); (70113, 70132); (70144, 70161); (70163, 70187);
   (70272, 70278); (70280, 70280); (70282, 70285); (70287, 70301); (70303,
   70312); (70320, 70366); (70384, 70393); (70405, 70412); (70415, 70416);
   (70419, 70440); (70442, 70448); (70450, 70451); (70453, 70457); (70461,
   70461); (70480, 70480); (70493, 70497); (70656, 70708); (70727, 70730);
   (70736, 70745); (70751, 70753); (70784, 70831); (70852, 70853); (70855,
   70855); (70864, 70873); (71040, 71086); (71128, 71131); (71168, 71215);
   (71236, 71236); (71248, 71257); (71296, 71338); (71352, 71352); (71360,
   71369); (71424, 71450); (71472, 71483); (71488, 71494); (71680, 71723);
   (71840, 71922); (71935, 71942); (71945, 71945); (71948, 71955); (71957,
   71958); (71960, 71983); (71999, 71999); (72001, 72001); (72016, 72025);
   (72096, 72103); (72106, 72144); (72161, 72161); (72163, 72163); (72192,
   72192); (72203, 72242); (72250, 72250); (72272, 72272); (72284, 72329);
   (72349, 72349); (72368, 72440); (72704, 72712); (72714, 72750); (72768,
   72768); (72784, 72812); (72818, 72847); (72960, 72966); (72968, 72969);
   (72971, 73008); (73030, 73030); (73040, 73049); (73056, 73061); (73063,
   73064); (73066, 73097); (73112, 73112); (73120, 73129); (73440, 73458);
   (73648, 73648); (73664, 73684); (73728, 74649); (74752, 74862); (74880,
   75075); (77712, 77808); (77824, 78894); (82944, 83526); (92160, 92728);
   (92736, 92766); (92768, 92777); (92784, 92862); (92864, 92873); (92880,
   92909); (92928, 92975); (92992, 92995); (93008, 93017); (93019, 93025);
   (93027, 93047); (93053, 93071); (93760, 93846); (93952, 94026); (94032,
   94032); (94099, 94111); (94176, 94177); (94179, 94179); (94208, 100343);
   (100352, 101589); (101632, 101640); (110576, 110579); (110581, 110587);
   (110589, 110590); (110592, 110882); (110928, 110930); (110948, 110951);
   (110960, 111355); (113664, 113770); (113776, 113788); (113792, 113800);
   (113808, 113817); (119520, 119539); (119648, 119672); (119808, 119892);
   (119894, 119964); (119966, 119967); (119970, 119970); (119973, 119974);
   (119977, 119980); (119982, 119993); (119995, 119995); (119997, 120003);
   (120005, 120069); (120071, 120074); (120077, 120084); (120086, 120092);
   (120094, 120121); (120123, 120126); (120128, 120132); (120134, 120134);
   (120138, 120144); (120146, 120485); (120488, 120512); (120514, 120538);
   (120540, 120570); (120572, 120596); (120598, 120628); (120630, 120654);
   (120656, 120686); (120688, 120712); (120714, 120744); (120746, 120770);
   (120772, 120779); (120782, 120831); (122624, 122654); (123136, 123180);
   (123191, 123197); (123200, 123209); (123214, 123214); (123536, 123565);
   (123584, 123627); (123632, 123641); (124896, 124902); (124904, 124907);
   (124909, 124910); (124912, 124926); (124928, 125124); (125127, 125135);
   (125184, 125251); (125259, 125259); (125264, 125273); (126065, 126123);
   (126125, 126127); (126129, 126132); (126209, 126253); (126255, 126269);
   (126464, 126467); (126469, 126495); (126497, 126498); (126500, 126500);
   (126503, 126503); (126505, 126514); (126516, 126519); (126521, 126521);
   (126523, 126523); (126530, 126530); (126535, 126535); (126537, 126537);
   (126539, 126539); (126541, 126543); (126545, 126546); (126548, 126548);
   (126551, 126551); (126553, 126553); (126555, 126555); (126557, 126557);
   (126559, 126559); (126561, 126562); (126564, 126564); (126567, 126570);
   (126572, 126578); (126580, 126583); (126585, 126588); (126590, 126590);
   (126592, 126601); (126603, 126619); (126625, 126627); (126629, 126633);
   (126635, 126651); (127232, 127244); (130032, 130041); (131072, 173791);
   (173824, 177976); (177984, 178205); (178208, 183969); (183984, 191456);
   (194560, 195101); (196608, 201546)
  ]%N.

(** The code points for which [str.isupper] holds. *)
Definition upper_ranges : list (N * N) :=
  [
   (65, 90); (192, 214); (216, 222); (256, 256); (258, 258); (260, 260);
   (262, 262); (264, 264); (266, 266); (268, 268); (270, 270); (272, 272);
   (274, 274); (276, 276); (278, 278); (280, 280); (282, 282); (284, 284);
   (286, 286); (288, 288); (290, 290); (292, 292); (294, 294); (296, 296);
   (298, 298); (300, 300); (302, 302); (304, 304); (306, 306); (308, 308);
   (310, 310); (313, 313); (315, 315); (317, 317); (319, 319); (321, 321);
   (323, 323); (325, 325); (327, 327); (330, 330); (332, 332); (334, 334);
   (336, 336); (338, 338); (340, 340); (342, 342); (344, 344); (346, 346);
   (348, 348); (350, 350); (352, 352); (354, 354); (356, 356); (358, 358);
   (360, 360); (362, 362); (364, 364); (366, 366); (368, 368); (370, 370);
   (372, 372); (374, 374); (376, 377); (379, 379); (381, 381); (385, 386);
   (388, 388); (390, 391); (393, 395); (398, 401); (403, 404); (406, 408);
   (412, 413); (415, 416); (418, 418); (420, 420); (422, 423); (425, 425);
   (428, 428); (430, 431); (433, 435); (437, 437); (439, 440); (444, 444);
   (452, 452); (455, 455); (458, 458); (461, 461); (463, 463); (465, 465);
   (467, 467); (469, 469); (471, 471); (473, 473); (475, 475); (478, 478);
   (480, 480); (482, 482); (484, 484); (486, 486); (488, 488); (490, 490);
   (492, 492); (494, 494); (497, 497); (500, 500); (502, 504); (506, 506);
   (508, 508); (510, 510); (512, 512); (514, 514); (516, 516); (518, 518);
   (520, 520); (522, 522); (524, 524); (526, 526); (528, 528); (530, 530);
   (532, 532); (534, 534); (536, 536); (538, 538); (540, 540); (542, 542);
   (544, 544); (546, 546); (548, 548); (550, 550); (552, 552); (554, 554);
   (556, 556); (558, 558); (560, 560); (562, 562); (570, 571); (573, 574);
   (577, 577); (579, 582); (584, 584); (586, 586); (588, 588); (590, 590);
   (880, 880); (882, 882); (886, 886); (895, 895); (902, 902); (904, 906);
   (908, 908); (910, 911); (913, 929); (931, 939); (975, 975); (978, 980);
   (984, 984); (986, 986); (988, 988); (990, 990); (992, 992); (994, 994);
   (996, 996); (998, 998); (1000, 1000); (1002, 1002); (1004, 1004); (1006,
   1006); (1012, 1012); (1015, 1015); (1017, 1018); (1021, 1071); (1120,
   1120); (1122, 1122); (1124, 1124); (1126, 1126); (1128, 1128); (1130,
   1130); (1132, 1132); (1134, 1134); (1136, 1136); (1138, 1138); (1140,
   1140); (1142, 1142); (1144, 1144); (1146, 1146); (1148, 1148); (1150,
   1150); (1152, 1152); (1162, 1162); (1164, 1164); (1166, 1166); (1168,
   1168); (1170, 1170); (1172, 1172); (1174, 1174); (1176, 1176); (1178,
   1178); (1180, 1180); (1182, 1182); (1184, 1184); (1186, 1186); (1188,
   1188); (1190, 1190); (1192, 1192); (1194, 1194); (1196, 1196); (1198,
   1198); (1200, 1200); (1202, 1202); (1204, 1204); (1206, 1206); (1208,
   1208); (1210, 1210); (1212, 1212); (1214, 1214); (1216, 1217); (1219,
   1219); (1221, 1221); (1223, 1223); (1225, 1225); (1227, 1227); (1229,
   1229); (1232, 1232); (1234, 1234); (1236, 1236); (1238, 1238); (1240,
   1240); (1242, 1242); (1244, 1244); (1246, 1246); (1248, 1248); (1250,
   1250); (1252, 1252); (1254, 1254); (1256, 1256); (1258, 1258); (1260,
   1260); (1262, 1262); (1264, 1264); (1266, 1266); (1268, 1268); (1270,
   1270); (1272, 1272); (1274, 1274); (1276, 1276); (1278, 1278); (1280,
   1280); (1282, 1282); (1284, 1284); (1286, 1286); (1288, 1288); (1290,
   1290); (1292, 1292); (1294, 1294); (1296, 1296); (1298, 1298); (1300,
   1300); (1302, 1302); (1304, 1304); (1306, 1306); (1308, 1308); (1310,
   1310); (1312, 1312); (1314, 1314); (1316, 1316); (1318, 1318); (1320,
   1320); (1322, 1322); (1324, 1324); (1326, 1326); (1329, 1366); (4256,
   4293); (4295, 4295); (4301, 4301); (5024, 5109); (7312, 7354); (7357,
   7359); (7680, 7680); (7682, 7682); (7684, 7684); (7686, 7686); (7688,
   7688); (7690, 7690); (7692, 7692); (7694, 7694); (7696, 7696); (7698,
   7698); (7700, 7700); (7702, 7702); (7704, 7704); (7706, 7706); (7708,
   7708); (7710, 7710); (7712, 7712); (7714, 7714); (7716, 7716); (7718,
   7718); (7720, 7720); (7722, 7722); (7724, 7724); (7726, 7726); (7728,
   7728); (7730, 7730); (7732, 7732); (7734, 7734); (7736, 7736); (7738,
   7738); (7740, 7740); (7742, 7742); (7744, 7744); (7746, 7746); (7748,
   7748); (7750, 7750); (7752, 7752); (7754, 7754); (7756, 7756); (7758,
   7758); (7760, 7760); (7762, 7762); (7764, 7764); (7766, 7766); (7768,
   7768); (7770, 7770); (7772, 7772); (7774, 7774); (7776, 7776); (7778,
   7778); (7780, 7780); (7782, 7782); (7784, 7784); (7786, 7786); (7788,
   7788); (7790, 7790); (7792, 7792); (7794, 7794); (7796, 7796); (7798,
   7798); (7800, 7800); (7802, 7802); (7804, 7804); (7806, 7806); (7808,
   7808); (7810, 7810); (7812, 7812); (7814, 7814); (7816, 7816); (7818,
   7818); (7820, 7820); (7822, 7822); (7824, 7824); (7826, 7826); (7828,
   7828); (7838, 7838); (7840, 7840); (7842, 7842); (7844, 7844); (7846,
   7846); (7848, 7848); (7850, 7850); (7852, 7852); (7854, 7854); (7856,
   7856); (7858, 7858); (7860, 7860); (7862, 7862); (7864, 7864); (7866,
   7866); (7868, 7868); (7870, 7870); (7872, 7872); (7874, 7874); (7876,
   7876); (7878, 7878); (7880, 7880); (7882, 7882); (7884, 7884); (7886,
   7886); (7888, 7888); (7890, 7890); (7892, 7892); (7894, 7894); (7896,
   7896); (7898, 7898); (7900, 7900); (7902, 7902); (7904, 7904); (7906,
   7906); (7908, 7908); (7910, 7910); (7912, 7912); (7914, 7914); (7916,
   7916); (7918, 7918); (7920, 7920); (7922, 7922); (7924, 7924); (7926,
   7926); (7928, 7928); (7930, 7930); (7932, 7932); (7934, 7934); (7944,
   7951); (7960, 7965); (7976, 7983); (7992, 7999); (8008, 8013); (8025,
   8025); (8027, 8027); (8029, 8029); (8031, 8031); (8040, 8047); (8120,
   8123); (8136, 8139); (8152, 8155); (8168, 8172); (8184, 8187); (8450,
   8450); (8455, 8455); (8459, 8461); (8464, 8466); (8469, 8469); (8473,
   8477); (8484, 8484); (8486, 8486); (8488, 8488); (8490, 8493); (8496,
   8499); (8510, 8511); (8517, 8517); (8544, 8559); (8579, 8579); (9398,
   9423); (11264, 11311); (11360, 11360); (11362, 11364); (11367, 11367);
   (11369, 11369); (11371, 11371); (11373, 11376); (11378, 11378); (11381,
   11381); (11390, 11392); (11394, 11394); (11396, 11396); (11398, 11398);
   (11400, 11400); (11402, 11402); (11404, 11404); (11406, 11406); (11408,
   11408); (11410, 11410); (11412, 11412); (11414, 11414); (11416, 11416);
   (11418, 11418); (11420, 11420); (11422, 11422); (11424, 11424); (11426,
   11426); (11428, 11428); (11430, 11430); (11432, 11432); (11434, 11434);
   (11436, 11436); (11438, 11438); (11440, 11440); (11442, 11442); (11444,
   11444); (11446, 11446); (11448, 11448); (11450, 11450); (11452, 11452);
   (11454, 11454); (11456, 11456); (11458, 11458); (11460, 11460); (11462,
   11462); (11464, 11464); (11466, 11466); (11468, 11468); (11470, 11470);
   (11472, 11472); (11474, 11474); (11476, 11476); (11478, 11478); (11480,
   11480); (11482, 11482); (11484, 11484); (11486, 11486); (11488, 11488);
   (11490, 11490); (11499, 11499); (11501, 11501); (11506, 11506); (42560,
   42560); (42562, 42562); (42564, 42564); (42566, 42566); (42568, 42568);
   (42570, 42570); (42572, 42572); (42574, 42574); (42576, 42576); (42578,
   42578); (42580, 42580); (42582, 42582); (42584, 42584); (42586, 42586);
   (42588, 42588); (42590, 42590); (42592, 42592); (42594, 42594); (42596,
   42596); (42598, 42598); (42600, 42600); (42602, 42602); (42604, 42604);
   (42624, 42624); (42626, 42626); (42628, 42628); (42630, 42630); (42632,
   42632); (42634, 42634); (42636, 42636); (42638, 42638); (42640, 42640);
   (42642, 42642); (42644, 42644); (42646, 42646); (42648, 42648); (42650,
   42650); (42786, 42786); (42788, 42788); (42790, 42790); (42792, 42792);
   (42794, 42794); (42796, 42796); (42798, 42798); (42802, 42802); (42804,
   42804); (42806, 42806); (42808, 42808); (42810, 42810); (42812, 42812);
   (42814, 42814); (42816, 42816); (42818, 42818); (42820, 42820); (42822,
   42822); (42824, 42824); (42826, 42826); (42828, 42828); (42830, 42830);
   (42832, 42832); (42834, 42834); (42836, 42836); (42838, 42838); (42840,
   42840); (42842, 42842); (42844, 42844); (42846, 42846); (42848, 42848);
   (42850, 42850); (42852, 42852); (42854, 42854); (42856, 42856); (42858,
   42858); (42860, 42860); (42862, 42862); (42873, 42873); (42875, 42875);
   (42877, 42878); (42880, 42880); (42882, 42882); (42884, 42884); (42886,
   42886); (42891, 42891); (42893, 42893); (42896, 42896); (42898, 42898);
   (42902, 42902); (42904, 42904); (42906, 42906); (42908, 42908); (42910,
   42910); (42912, 42912); (42914, 42914); (42916, 42916); (42918, 42918);
   (42920, 42920); (42922, 42926); (42928, 42932); (42934, 42934); (42936,
   42936); (42938, 42938); (42940, 42940); (42942, 42942); (42944, 42944);
   (42946, 42946); (42948, 42951); (42953, 42953); (42960, 42960); (42966,
   42966); (42968, 42968); (42997, 42997); (65313, 65338); (66560, 66599);
   (66736, 66771); (66928, 66938); (66940, 66954); (66956, 66962); (66964,
   66965); (68736, 68786); (71840, 71871); (93760, 93791); (119808, 119833);
   (119860, 119885); (119912, 119937); (119964, 119964); (119966, 119967);
   (119970, 119970); (119973, 119974); (119977, 119980); (119982, 119989);
   (120016, 120041); (120068, 120069); (120071, 120074); (120077, 120084);
   (120086, 120092); (120120, 120121); (120123, 120126); (120128, 120132);
   (120134, 120134); (120138, 120144); (120172, 120197); (120224, 120249);
   (120276, 120301); (120328, 120353); (120380, 120405); (120432, 120457);
   (120488, 120512); (120546, 120570); (120604, 120628); (120662, 120686);
   (120720, 120744); (120778, 120778); (125184, 125217); (127280, 127305);
   (127312, 127337); (127344, 127369)
  ]%N.

(** The code points with the property Cased. *)
Definition cased_ranges : list (N * N) :=
  [
   (65, 90); (97, 122); (170, 170); (181, 181); (186, 186); (192, 214);
   (216, 246); (248, 442); (444, 447); (452, 659); (661, 696); (704, 705);
   (736, 740); (837, 837); (880, 883); (886, 887); (890, 893); (895, 895);
   (902, 902); (904, 906); (908, 908); (910, 929); (931, 1013); (1015,
   1153); (1162, 1327); (1329, 1366); (1376, 1416); (4256, 4293); (4295,
   4295); (4301, 4301); (4304, 4346); (4349, 4351); (5024, 5109); (5112,
   5117); (7296, 7304); (7312, 7354); (7357, 7359); (7424, 7615); (7680,
   7957); (7960, 7965); (7968, 8005); (8008, 8013); (8016, 8023); (8025,
   8025); (8027, 8027); (8029, 8029); (8031, 8061); (8064, 8116); (8118,
   8124); (8126, 8126); (8130, 8132); (8134, 8140); (8144, 8147); (8150,
   8155); (8160, 8172); (8178, 8180); (8182, 8188); (8305, 8305); (8319,
   8319); (8336, 8348); (8450, 8450); (8455, 8455); (8458, 8467); (8469,
   8469); (8473, 8477); (8484, 8484); (8486, 8486); (8488, 8488); (8490,
   8493); (8495, 8500); (8505, 8505); (8508, 8511); (8517, 8521); (8526,
   8526); (8544, 8575); (8579, 8580); (9398, 9449); (11264, 11492); (11499,
   11502); (11506, 11507); (11520, 11557); (11559, 11559); (11565, 11565);
   (42560, 42605); (42624, 42653); (42786, 42887); (42891, 42894); (42896,
   42954); (42960, 42961); (42963, 42963); (42965, 42969); (42997, 42998);
   (43000, 43002); (43824, 43866); (43868, 43880); (43888, 43967); (64256,
   64262); (64275, 64279); (65313, 65338); (65345, 65370); (66560, 66639);
   (66736, 66771); (66776, 66811); (66928, 66938); (66940, 66954); (66956,
   66962); (66964, 66965); (66967, 66977); (66979, 66993); (66995, 67001);
   (67003, 67004); (67456, 67456); (67459, 67461); (67463, 67504); (67506,
   67514); (68736, 68786); (68800, 68850); (71840, 71903); (93760, 93823);
   (119808, 119892); (119894, 119964); (119966, 119967); (119970, 119970);
   (119973, 119974); (119977, 119980); (119982, 119993); (119995, 119995);
   (119997, 120003); (120005, 120069); (120071, 120074); (120077, 120084);
   (120086, 120092); (120094, 120121); (120123, 120126); (120128, 120132);
   (120134, 120134); (120138, 120144); (120146, 120485); (120488, 120512);
   (120514, 120538); (120540, 120570); (120572, 120596); (120598, 120628);
   (120630, 120654); (120656, 120686); (120688, 120712); (120714, 120744);
   (120746, 120770); (120772, 120779); (122624, 122633); (122635, 122654);
   (125184, 125251); (127280, 127305); (127312, 127337); (127344, 127369)
  ]%N.

(** The code points with the property Case_Ignorable. *)
Definition ignorable_ranges : list (N * N) :=
  [
   (39, 39); (46, 46); (58, 58); (94, 94); (96, 96); (168, 168); (173, 173);
   (175, 175); (180, 180); (183, 184); (688, 879); (884, 885); (890, 890);
   (900, 901); (903, 903); (1155, 1161); (1369, 1369); (1375, 1375); (1425,
   1469); (1471, 1471); (1473, 1474); (1476, 1477); (1479, 1479); (1524,
   1524); (1536, 1541); (1552, 1562); (1564, 1564); (1600, 1600); (1611,
   1631); (1648, 1648); (1750, 1757); (1759, 1768); (1770, 1773); (1807,
   1807); (1809, 1809); (1840, 1866); (1958, 1968); (2027, 2037); (2042,
   2042); (2045, 2045); (2070, 2093); (2137, 2139); (2184, 2184); (2192,
   2193); (2200, 2207); (2249, 2306); (2362, 2362); (2364, 2364); (2369,
   2376); (2381, 2381); (2385, 2391); (2402, 2403); (2417, 2417); (2433,
   2433); (2492, 2492); (2497, 2500); (2509, 2509); (2530, 2531); (2558,
   2558); (2561, 2562); (2620, 2620); (2625, 2626); (2631, 2632); (2635,
   2637); (2641, 2641); (2672, 2673); (2677, 2677); (2689, 2690); (2748,
   2748); (2753, 2757); (2759, 2760); (2765, 2765); (2786, 2787); (2810,
   2815); (2817, 2817); (2876, 2876); (2879, 2879); (2881, 2884); (2893,
   2893); (2901, 2902); (2914, 2915); (2946, 2946); (3008, 3008); (3021,
   3021); (3072, 3072); (3076, 3076); (3132, 3132); (3134, 3136); (3142,
   3144); (3146, 3149); (3157, 3158); (3170, 3171); (3201, 3201); (3260,
   3260); (3263, 3263); (3270, 3270); (3276, 3277); (3298, 3299); (3328,
   3329); (3387, 3388); (3393, 3396); (3405, 3405); (3426, 3427); (3457,
   3457); (3530, 3530); (3538, 3540); (3542, 3542); (3633, 3633); (3636,
   3642); (3654, 3662); (3761, 3761); (3764, 3772); (3782, 3782); (3784,
   3789); (3864, 3865); (3893, 3893); (3895, 3895); (3897, 3897); (3953,
   3966); (3968, 3972); (3974, 3975); (3981, 3991); (3993, 4028); (4038,
   4038); (4141, 4144); (4146, 4151); (4153, 4154); (4157, 4158); (4184,
   4185); (4190, 4192); (4209, 4212); (4226, 4226); (4229, 4230); (4237,
   4237); (4253, 4253); (4348, 4348); (4957, 4959); (5906, 5908); (5938,
   5939); (5970, 5971); (6002, 6003); (6068, 6069); (6071, 6077); (6086,
   6086); (6089, 6099); (6103, 6103); (6109, 6109); (6155, 6159); (6211,
   6211); (6277, 6278); (6313, 6313); (6432, 6434); (6439, 6440); (6450,
   6450); (6457, 6459); (6679, 6680); (6683, 6683); (6742, 6742); (6744,
   6750); (6752, 6752); (6754, 6754); (6757, 6764); (6771, 6780); (6783,
   6783); (6823, 6823); (6832, 6862); (6912, 6915); (6964, 6964); (6966,
   6970); (6972, 6972); (6978, 6978); (7019, 7027); (7040, 7041); (7074,
   7077); (7080, 7081); (7083, 7085); (7142, 7142); (7144, 7145); (7149,
   7149); (7151, 7153); (7212, 7219); (7222, 7223); (7288, 7293); (7376,
   7378); (7380, 7392); (7394, 7400); (7405, 7405); (7412, 7412); (7416,
   7417); (7468, 7530); (7544, 7544); (7579, 7679); (8125, 8125); (8127,
   8129); (8141, 8143); (8157, 8159); (8173, 8175); (8189, 8190); (8203,
   8207); (8216, 8217); (8228, 8228); (8231, 8231); (8234, 8238); (8288,
   8292); (8294, 8303); (8305, 8305); (8319, 8319); (8336, 8348); (8400,
   8432); (11388, 11389); (11503, 11505); (11631, 11631); (11647, 11647);
   (11744, 11775); (11823, 11823); (12293, 12293); (12330, 12333); (12337,
   12341); (12347, 12347); (12441, 12446); (12540, 12542); (40981, 40981);
   (42232, 42237); (42508, 42508); (42607, 42610); (42612, 42621); (42623,
   42623); (42652, 42655); (42736, 42737); (42752, 42785); (42864, 42864);
   (42888, 42890); (42994, 42996); (43000, 43001); (43010, 43010); (43014,
   43014); (43019, 43019); (43045, 43046); (43052, 43052); (43204, 43205);
   (43232, 43249); (43263, 43263); (43302, 43309); (43335, 43345); (43392,
   43394); (43443, 43443); (43446, 43449); (43452, 43453); (43471, 43471);
   (43493, 43494); (43561, 43566); (43569, 43570); (43573, 43574); (43587,
   43587); (43596, 43596); (43632, 43632); (43644, 43644); (43696, 43696);
   (43698, 43700); (43703, 43704); (43710, 43711); (43713, 43713); (43741,
   43741); (43756, 43757); (43763, 43764); (43766, 43766); (43867, 43871);
   (43881, 43883); (44005, 44005); (44008, 44008); (44013, 44013); (64286,
   64286); (64434, 64450); (65024, 65039); (65043, 65043); (65056, 65071);
   (65106, 65106); (65109, 65109); (65279, 65279); (65287, 65287); (65294,
   65294); (65306, 65306); (65342, 65342); (65344, 65344); (65392, 65392);
   (65438, 65439); (65507, 65507); (65529, 65531); (66045, 66045); (66272,
   66272); (66422, 66426); (67456, 67461); (67463, 67504); (67506, 67514);
   (68097, 68099); (68101, 68102); (68108, 68111); (68152, 68154); (68159,
   68159); (68325, 68326); (68900, 68903); (69291, 69292); (69446, 69456);
   (69506, 69509); (69633, 69633); (69688, 69702); (69744, 69744); (69747,
   69748); (69759, 69761); (69811, 69814); (69817, 69818); (69821, 69821);
   (69826, 69826); (69837, 69837); (69888, 69890); (69927, 69931); (69933,
   69940); (70003, 70003); (70016, 70017); (70070, 70078); (70089, 70092);
   (70095, 70095); (70191, 70193); (70196, 70196); (70198, 70199); (70206,
   70206); (70367, 70367); (70371, 70378); (70400, 70401); (70459, 70460);
   (70464, 70464); (70502, 70508); (70512, 70516); (70712, 70719); (70722,
   70724); (70726, 70726); (70750, 70750); (70835, 70840); (70842, 70842);
   (70847, 70848); (70850, 70851); (71090, 71093); (71100, 71101); (71103,
   71104); (71132, 71133); (71219, 71226); (71229, 71229); (71231, 71232);
   (71339, 71339); (71341, 71341); (71344, 71349); (71351, 71351); (71453,
   71455); (71458, 71461); (71463, 71467); (71727, 71735); (71737, 71738);
   (71995, 71996); (71998, 71998); (72003, 72003); (72148, 72151); (72154,
   72155); (72160, 72160); (72193, 72202); (72243, 72248); (72251, 72254);
   (72263, 72263); (72273, 72278); (72281, 72283); (72330, 72342); (72344,
   72345); (72752, 72758); (72760, 72765); (72767, 72767); (72850, 72871);
   (72874, 72880); (72882, 72883); (72885, 72886); (73009, 73014); (73018,
   73018); (73020, 73021); (73023, 73029); (73031, 73031); (73104, 73105);
   (73109, 73109); (73111, 73111); (73459, 73460); (78896, 78904); (92912,
   92916); (92976, 92982); (92992, 92995); (94031, 94031); (94095, 94111);
   (94176, 94177); (94179, 94180); (110576, 110579); (110581, 110587);
   (110589, 110590); (113821, 113822); (113824, 113827); (118528, 118573);
   (118576, 118598); (119143, 119145); (119155, 119170); (119173, 119179);
   (119210, 119213); (119362, 119364); (121344, 121398); (121403, 121452);
   (121461, 121461); (121476, 121476); (121499, 121503); (121505, 121519);
   (122880, 122886); (122888, 122904); (122907, 122913); (122915, 122916);
   (122918, 122922); (123184, 123197); (123566, 123566); (123628, 123631);
   (125136, 125142); (125252, 125259); (127995, 127999); (917505, 917505);
   (917536, 917631); (917760, 917999)
  ]%N.

(** The simple lower-case mappings: from [lo] to [hi] in steps of [stride], the code point [lo + k] goes to [target + k]. *)
Definition lower_runs : list (N * N * N * N) :=
  [
   (65, 90, 1, 97); (192, 214, 1, 224); (216, 222, 1, 248); (256, 302, 2,
   257); (306, 310, 2, 307); (313, 327, 2, 314); (330, 374, 2, 331); (376,
   376, 1, 255); (377, 381, 2, 378); (385, 385, 1, 595); (386, 388, 2, 387);
   (390, 390, 1, 596); (391, 391, 1, 392); (393, 394, 1, 598); (395, 395, 1,
   396); (398, 398, 1, 477); (399, 399, 1, 601); (400, 400, 1, 603); (401,
   401, 1, 402); (403, 403, 1, 608); (404, 404, 1, 611); (406, 406, 1, 617);
   (407, 407, 1, 616); (408, 408, 1, 409); (412, 412, 1, 623); (413, 413, 1,
   626); (415, 415, 1, 629); (416, 420, 2, 417); (422, 422, 1, 640); (423,
   423, 1, 424); (425, 425, 1, 643); (428, 428, 1, 429); (430, 430, 1, 648);
   (431, 431, 1, 432); (433, 434, 1, 650); (435, 437, 2, 436); (439, 439, 1,
   658); (440, 440, 1, 441); (444, 444, 1, 445); (452, 452, 1, 454); (453,
   453, 1, 454); (455, 455, 1, 457); (456, 456, 1, 457); (458, 458, 1, 460);
   (459, 475, 2, 460); (478, 494, 2, 479); (497, 497, 1, 499); (498, 500, 2,
   499); (502, 502, 1, 405); (503, 503, 1, 447); (504, 542, 2, 505); (544,
   544, 1, 414); (546, 562, 2, 547); (570, 570, 1, 11365); (571, 571, 1,
   572); (573, 573, 1, 410); (574, 574, 1, 11366); (577, 577, 1, 578); (579,
   579, 1, 384); (580, 580, 1, 649); (581, 581, 1, 652); (582, 590, 2, 583);
   (880, 882, 2, 881); (886, 886, 1, 887); (895, 895, 1, 1011); (902, 902,
   1, 940); (904, 906, 1, 941); (908, 908, 1, 972); (910, 911, 1, 973);
   (913, 929, 1, 945); (931, 939, 1, 963); (975, 975, 1, 983); (984, 1006,
   2, 985); (1012, 1012, 1, 952); (1015, 1015, 1, 1016); (1017, 1017, 1,
   1010); (1018, 1018, 1, 1019); (1021, 1023, 1, 891); (1024, 1039, 1,
   1104); (1040, 1071, 1, 1072); (1120, 1152, 2, 1121); (1162, 1214, 2,
   1163); (1216, 1216, 1, 1231); (1217, 1229, 2, 1218); (1232, 1326, 2,
   1233); (1329, 1366, 1, 1377); (4256, 4293, 1, 11520); (4295, 4295, 1,
   11559); (4301, 4301, 1, 11565); (5024, 5103, 1, 43888); (5104, 5109, 1,
   5112); (7312, 7354, 1, 4304); (7357, 7359, 1, 4349); (7680, 7828, 2,
   7681); (7838, 7838, 1, 223); (7840, 7934, 2, 7841); (7944, 7951, 1,
   7936); (7960, 7965, 1, 7952); (7976, 7983, 1, 7968); (7992, 7999, 1,
   7984); (8008, 8013, 1, 8000); (8025, 8031, 2, 8017); (8040, 8047, 1,
   8032); (8072, 8079, 1, 8064); (8088, 8095, 1, 8080); (8104, 8111, 1,
   8096); (8120, 8121, 1, 8112); (8122, 8123, 1, 8048); (8124, 8124, 1,
   8115); (8136, 8139, 1, 8050); (8140, 8140, 1, 8131); (8152, 8153, 1,
   8144); (8154, 8155, 1, 8054); (8168, 8169, 1, 8160); (8170, 8171, 1,
   8058); (8172, 8172, 1, 8165); (8184, 8185, 1, 8056); (8186, 8187, 1,
   8060); (8188, 8188, 1, 8179); (8486, 8486, 1, 969); (8490, 8490, 1, 107);
   (8491, 8491, 1, 229); (8498, 8498, 1, 8526); (8544, 8559, 1, 8560);
   (8579, 8579, 1, 8580); (9398, 9423, 1, 9424); (11264, 11311, 1, 11312);
   (11360, 11360, 1, 11361); (11362, 11362, 1, 619); (11363, 11363, 1,
   7549); (11364, 11364, 1, 637); (11367, 11371, 2, 11368); (11373, 11373,
   1, 593); (11374, 11374, 1, 625); (11375, 11375, 1, 592); (11376, 11376,
   1, 594); (11378, 11378, 1, 11379); (11381, 11381, 1, 11382); (11390,
   11391, 1, 575); (11392, 11490, 2, 11393); (11499, 11501, 2, 11500);
   (11506, 11506, 1, 11507); (42560, 42604, 2, 42561); (42624, 42650, 2,
   42625); (42786, 42798, 2, 42787); (42802, 42862, 2, 42803); (42873,
   42875, 2, 42874); (42877, 42877, 1, 7545); (42878, 42886, 2, 42879);
   (42891, 42891, 1, 42892); (42893, 42893, 1, 613); (42896, 42898, 2,
   42897); (42902, 42920, 2, 42903); (42922, 42922, 1, 614); (42923, 42923,
   1, 604); (42924, 42924, 1, 609); (42925, 42925, 1, 620); (42926, 42926,
   1, 618); (42928, 42928, 1, 670); (42929, 42929, 1, 647); (42930, 42930,
   1, 669); (42931, 42931, 1, 43859); (42932, 42946, 2, 42933); (42948,
   42948, 1, 42900); (42949, 42949, 1, 642); (42950, 42950, 1, 7566);
   (42951, 42953, 2, 42952); (42960, 42960, 1, 42961); (42966, 42968, 2,
   42967); (42997, 42997, 1, 42998); (65313, 65338, 1, 65345); (66560,
   66599, 1, 66600); (66736, 66771, 1, 66776); (66928, 66938, 1, 66967);
   (66940, 66954, 1, 66979); (66956, 66962, 1, 66995); (66964, 66965, 1,
   67003); (68736, 68786, 1, 68800); (71840, 71871, 1, 71872); (93760,
   93791, 1, 93792); (125184, 125217, 1, 125218)
  ]%N.

(** [c.isspace()] *)
Definition isspace (c : N) : bool := in_ranges space_ranges c.

(** [c.isalnum()] *)
Definition isalnum (c : N) : bool := in_ranges alnum_ranges c.

(** [c.isupper()] *)
Definition isupper (c : N) : bool := in_ranges upper_ranges c.

(** The properties Cased and Case_Ignorable, which [str.lower] consults
    around a capital sigma. *)
Definition cased (c : N) : bool := in_ranges cased_ranges c.

Definition case_ignorable (c : N) : bool := in_ranges ignorable_ranges c.

(** The lower-case partner of [c] in the table of runs, sorted by [lo]. *)
Fixpoint lookup_run (t : list (N * N * N * N)) (c : N) : option N :=
  match t with
  | [] => None
  | (lo, hi, stride, target) :: t' =>
      if (c <? lo)%N then None
      else if ((c <=? hi) && ((c - lo) mod stride =? 0))%N
           then Some (target + (c - lo))%N
           else lookup_run t' c
  end.

(** The full lower-case mapping of one character.  The capital I with
    dot above is the one character that maps to two; a character without
    an entry maps to itself. *)
Definition lower_full (c : N) : list N :=
  if (c =? 304)%N then [105; 775]%N
  else match lookup_run lower_runs c with
       | Some x => [x]
       | None => [c]
       end.

(** ** Strings *)

(** The part of a text from its first character that is not
    case-ignorable. *)
Fixpoint skip_ignorable (s : list N) : list N :=
  match s with
  | [] => []
  | c :: s' => if case_ignorable c then skip_ignorable s' else s
  end.

(** Whether a capital sigma is in final position: the characters
    [before] it (nearest first) lead to a cased one, and those [after]
    it do not.  It becomes the final small sigma there. *)
Definition final_sigma (before after : list N) : bool :=
  match skip_ignorable before with
  | [] => false
  | c :: _ =>
      cased c
      && match skip_ignorable after with
         | [] => true
         | d :: _ => negb (cased d)
         end
  end.

Definition lower_at (before : list N) (c : N) (after : list N) : list N :=
  if (c =? 931)%N then [if final_sigma before after then 962 else 963]%N
  else lower_full c.

(** [s.lower()]; [before] holds the characters passed, nearest first. *)
Fixpoint lower_go (before s : list N) : list N :=
  match s with
  | [] => []
  | c :: s' => lower_at before c s' ++ lower_go (c :: before) s'
  end.

Definition lower (s : list N) : list N := lower_go [] s.

(** [s.replace(old, new)] for one-character [old] and [new]. *)
Fixpoint replace (old new : N) (s : list N) : list N :=
  match s with
  | [] => []
  | c :: s' => (if decide (c = old) then new else c) :: replace old new s'
  end.

(** [s.split()]: the maximal runs of non-whitespace characters, in
    order.  [cur] holds the characters of the run being read. *)
Fixpoint split_go (cur s : list N) : list (list N) :=
  match s with
  | [] => match cur with [] => [] | _ :: _ => [cur] end
  | c :: s' =>
      if isspace c
      then match cur with
           | [] => split_go [] s'
           | _ :: _ => cur :: split_go [] s'
           end
      else split_go (cur ++ [c]) s'
  end.

Definition split (s : list N) : list (list N) := split_go [] s.

(** ** Regular expressions

    The fragment of [re] that [parentheses_re] uses: a pattern is a
    sequence of items, each one character class, possibly under a greedy
    star. *)

Inductive class : Type :=
  | Lit (c : N)        (* an escaped literal, as in [\(] *)
  | NotLit (c : N).    (* a negated set of one character, as in [[^)]] *)

Inductive item : Type :=
  | One (k : class)
  | Star (k : class).

Definition regex : Type := list item.

Definition accepts (k : class) (c : N) : bool :=
  match k with
  | Lit d => bool_decide (c = d)
  | NotLit d => negb (bool_decide (c = d))
  end.

(** Backtracking match of [re] at the start of [s]: the length of the
    match the engine finds, if there is one.  A star first takes as many
    characters as it can and gives them back one at a time. *)
Fixpoint match_here (re : regex) : list N -> option nat :=
  match re with
  | [] => fun _ => Some O
  | One k :: re' => fun s =>
      match s with
      | c :: s' =>
          if accepts k c then
            match match_here re' s' with Some m => Some (S m) | None => None end
          else None
      | [] => None
      end
  | Star k :: re' =>
      fix star (s : list N) : option nat :=
        match s with
        | c :: s' =>
            if accepts k c then
              match star s' with
              | Some m => Some (S m)
              | None => match_here re' s
              end
            else match_here re' s
        | [] => match_here re' s
        end
  end.

(** [re.sub('', s)]: scan from the left; where a non-empty match starts,
    drop it and go on behind it; otherwise keep the character.  [skip]
    counts the characters of the current match still to drop. *)
Fixpoint sub_empty (re : regex) (skip : nat) (s : list N) : list N :=
  match s with
  | [] => []
  | c :: s' =>
      match skip with
      | S k => sub_empty re k s'
      | O =>
          match match_here re s with
          | Some (S k) => sub_empty re k s'
          | _ => c :: sub_empty re O s'
          end
      end
  end.

(** ** The tokenizer *)

(** [parentheses_re = re.compile(r'\([^)]*\)')] *)
Definition parentheses_re : regex :=
  [One (Lit (ord "(")); Star (NotLit (ord ")")); One (Lit (ord ")"))].

Definition remove_parentheses (text : list N) : list N :=
  sub_empty parentheses_re O text.

(** What is left of the pattern behind the opening parenthesis. *)
Definition closing : regex := [Star (NotLit (ord ")")); One (Lit (ord ")"))].

(** No match of [parentheses_re] starts anywhere in [s]. *)
Fixpoint settled (s : list N) : Prop :=
  match s with
  | [] => True
  | c :: s' => match_here parentheses_re s = None ∧ settled s'
  end.

(** [c in {"~", "{", "}", "+", "-", "/"}] *)
Definition is_kept_symbol (c : N) : bool :=
  bool_decide (c ∈ [ord "~"; ord "{"; ord "}"; ord "+"; ord "-"; ord "/"]).

(** The body of the loop of [remove_punctuation]; [out] is the list the
    loop appends to.  The test for LF, CR and TAB is an [if] of its own,
    followed by the [if]/[elif]/[else] chain. *)
Definition punctuation_step (out : list N) (c : N) : list N :=
  let out :=
    if bool_decide (c ∈ [ord "010"; ord "013"; ord "009"])
    then out ++ [ord " "]
    else out in
  if isspace c || isalnum c then out ++ [c]
  else if is_kept_symbol c then
    let out := out ++ [c] in
    if bool_decide (c = ord "}") then out ++ [ord " "] else out
  else out ++ [ord " "].

(** [out] holds one-character strings, so ["".join(out)] is the list of
    its characters. *)
Definition remove_punctuation (text : list N) : list N :=
  foldl punctuation_step [] text.

Definition clean_oracle_text (text : list N) : list (list N) :=
  let no_parentheses := remove_parentheses text in
  let no_newlines := replace (ord "010") (ord " ") no_parentheses in
  let no_punctuation := remove_punctuation no_newlines in
  let no_upper := lower no_punctuation in
  split no_upper.


(** The characters a token can hold: not whitespace, not upper case,
    and alphanumeric or one of the kept symbols. *)
Definition token_char (c : N) : bool :=
  negb (isspace c) && negb (isupper c) && (isalnum c || is_kept_symbol c).

(** Whether a text holds an alphanumeric character, or a kept symbol. *)
Definition has_alnum (text : list N) : bool := existsb isalnum text.

Definition has_kept_symbol (text : list N) : bool :=
  existsb is_kept_symbol text.

(** The characters that [remove_punctuation] keeps as parts of words:
    the alphanumeric ones and the six symbols. *)
Definition is_word_char (c : N) : bool := isalnum c || is_kept_symbol c.

(** Every closing brace of the list has a whitespace character behind it. *)
Fixpoint braces_closed (l : list N) : Prop :=
  match l with
  | [] => True
  | c :: l' =>
      (c = ord "}" →
       match l' with d :: _ => isspace d = true | [] => False end)
      ∧ braces_closed l'
  end.

(** The code points of a table of ranges, one by one. *)
Definition range_points (t : list (N * N)) : list N :=
  t ≫= fun r : N * N =>
         (fun k => (r.1 + N.of_nat k)%N) <$> seq 0 (S (N.to_nat (r.2 - r.1))).

(** The texts whose characters are all code points below 256, the
    Latin-1 block; it holds ASCII. *)
Definition latin1 (s : list N) : Prop := Forall (fun c => (c < 256)%N) s.

(** The lower-case form of a character that has exactly one. *)
Definition lower_char (c : N) : N :=
  match lower_full c with
  | [x] => x
  | _ => c
  end.

(** The code points that [str.lower] yields for no character but
    themselves: the whitespace and the ASCII characters that are not
    alphanumeric. *)
Definition guarded (x : N) : bool :=
  isspace x || ((x <? 128)%N && negb (isalnum x)).

(** A run of the table of lower-case mappings yields no guarded code
    point. *)
Definition run_unguarded (r : N * N * N * N) : bool :=
  let '(lo, hi, _, target) := r in
  forallb (fun k => negb (guarded (target + N.of_nat k)%N))
    (seq 0 (S (N.to_nat (hi - lo)))).

(** [" ".join(words)] *)
Fixpoint join_space (words : list (list N)) : list N :=
  match words with
  | [] => []
  | w :: words' =>
      match words' with
      | [] => w
      | _ :: _ => w ++ ord " " :: join_space words'
      end
  end.

(** ** The corpus *)

(** [s.startswith(p)], with what follows the prefix. *)
Fixpoint strip_prefix (p s : list N) : option (list N) :=
  match p, s with
  | [], _ => Some s
  | a :: p', b :: s' => if decide (a = b) then strip_prefix p' s' else None
  | _ :: _, [] => None
  end.

(** [s.replace(old, new)] for a non-empty [old]: scan from the left;
    where [old] starts, write [new] and go on behind the occurrence.
    [skip] counts the characters of the occurrence still to pass. *)
Fixpoint str_replace_go (old new : list N) (skip : nat) (s : list N)
  : list N :=
  match s with
  | [] => []
  | c :: s' =>
      match skip with
      | S k => str_replace_go old new k s'
      | O =>
          match strip_prefix old s with
          | Some _ => new ++ str_replace_go old new (pred (length old)) s'
          | None => c :: str_replace_go old new O s'
          end
      end
  end.

(** For the empty [old], [new] goes before every character and at the
    end. *)
Fixpoint interleave (new s : list N) : list N :=
  match s with
  | [] => new
  | c :: s' => new ++ c :: interleave new s'
  end.

(** [s.replace(old, new)] *)
Definition str_replace (old new s : list N) : list N :=
  match old with
  | [] => interleave new s
  | _ :: _ => str_replace_go old new O s
  end.

(** [old] starts nowhere in [s]. *)
Fixpoint nowhere (old s : list N) : Prop :=
  strip_prefix old s = None
  ∧ match s with
    | [] => True
    | _ :: s' => nowhere old s'
    end.

(** The cards as the first generator yields them: the name and the
    oracle text, [None] when the card has none. *)
Definition card : Type := list N * option (list N).

(** [((name, text.replace(name, "~")) for name, text in data
      if text is not None)] *)
Definition no_card_names (data : list card) : list (list N * list N) :=
  omap (fun c : card =>
          match c.2 with
          | Some text => Some (c.1, str_replace c.1 (str "~") text)
          | None => None
          end) data.

(** [((name, clean_oracle_text(text)) for name, text in no_card_names)] *)
Definition cleaned (data : list card) : list (list N * list (list N)) :=
  (fun item : list N * list N => (item.1, clean_oracle_text item.2))
    <$> no_card_names data.

(** ** The vocabulary *)

Definition lpad : list N := str "<lpad>".
Definition rpad : list N := str "<rpad>".

(** The state of the construction loop: the dictionary and [index]. *)
Definition scan_state : Type := gmap (list N) Z * Z.

(** [bag_of_words: dict[str, int] = {rpad: 0, lpad: 1}] and [index = 2] *)
Definition scan_init : scan_state := ({[ rpad := 0; lpad := 1 ]}, 2).

(** The body of the inner loop, [for word in text]. *)
Definition scan_word (st : scan_state) (word : list N) : scan_state :=
  match st.1 !! word with
  | Some _ => st
  | None => (<[ word := st.2 ]> st.1, st.2 + 1)
  end.

(** The outer loop, [for name, text in cleaned], from any state. *)
Definition scan (st : scan_state) (cleaned : list (list N * list (list N)))
  : scan_state :=
  foldl (fun st item => foldl scan_word st item.2) st cleaned.

(** The dictionary once the loop has run over the corpus. *)
Definition bag_of_words (cleaned : list (list N * list (list N)))
  : gmap (list N) Z :=
  (scan scan_init cleaned).1.

(** The words of the corpus in the order the two loops visit them. *)
Definition corpus_words (cleaned : list (list N * list (list N)))
  : list (list N) :=
  mjoin (cleaned.*2).

(** What the loop maintains: both sentinels keep their ids, [index] is
    above every id handed out, and no id is handed out twice. *)
Record vocabulary_ok (st : scan_state) : Prop := {
  ok_rpad : st.1 !! rpad = Some 0;
  ok_lpad : st.1 !! lpad = Some 1;
  ok_index : 2 ≤ st.2;
  ok_below : ∀ (w : list N) (i : Z), st.1 !! w = Some i → 0 ≤ i < st.2;
  ok_unique : ∀ (w1 w2 : list N) (i : Z),
      st.1 !! w1 = Some i → st.1 !! w2 = Some i → w1 = w2
}.

(** The dictionary of the specification's example. *)
Definition example_bag : gmap (list N) Z :=
  {[ str "<rpad>" := 0; str "<lpad>" := 1; str "destroy" := 2;
     str "target" := 3; str "creature" := 4 ]}.

(** A corpus of two cleaned texts, each with the name of its card. *)
Definition example_corpus : list (list N * list (list N)) :=
  [(str "Murder", [str "destroy"; str "target"; str "creature"]);
   (str "Shock", [str "~"; str "deals"; str "2"; str "damage"; str "to";
                  str "any"; str "target"])].

(** Two cards with oracle text and one without. *)
Definition example_data : list card :=
  [(str "Shock", Some (str "Shock deals 2 damage to any target."));
   (str "Forest", None);
   (str "Murder", Some (str "Destroy target creature."))].

(** ** Exceptions *)

Inductive exception : Type :=
  | ValueError
  | KeyError (key : list N).

Inductive result (A : Type) : Type :=
  | Ok (a : A)
  | Raise (e : exception).

Arguments Ok {A} a.
Arguments Raise {A} e.

(** Errors propagate through [x ← r; k], stdpp's notation for bind. *)
#[global] Instance result_ret : MRet result := fun A a => Ok a.

#[global] Instance result_bind : MBind result := fun A B k r =>
  match r with
  | Ok a => k a
  | Raise e => Raise e
  end.

(** ** The vectorizer *)

(** [bag[word]]: the value, or [KeyError] with the key. *)
Definition getitem (bag : gmap (list N) Z) (word : list N) : result Z :=
  match bag !! word with
  | Some i => Ok i
  | None => Raise (KeyError word)
  end.

(** [[bag[word] for word in words]], evaluated from the left. *)
Fixpoint getitems (bag : gmap (list N) Z) (words : list (list N))
  : result (list Z) :=
  match words with
  | [] => Ok []
  | word :: words' =>
      i ← getitem bag word;
      ids ← getitems bag words';
      mret (i :: ids)
  end.

(** [vectorize], with the global dictionary as an argument. *)
Definition vectorize (bag : gmap (list N) Z) (text : list N)
  : result (list Z) :=
  getitems bag ([lpad] ++ clean_oracle_text text ++ [rpad]).

(** ** Sliding windows *)

(** [sys.maxsize] of a 64-bit CPython, [2 ** 63 - 1]: the largest length
    of a list and the largest stop that [islice] takes. *)
Definition sys_maxsize : Z := 9223372036854775807.

(** [islice(it, n)] consumed by [list]: the elements taken and the
    iterator that is left.  A stop that is negative or above
    [sys.maxsize] is refused with [ValueError]. *)
Definition islice {A : Type} (it : list A) (n : Z)
  : result (list A * list A) :=
  if (n <? 0) || (sys_maxsize <? n) then Raise ValueError
  else Ok (take (Z.to_nat n) it, drop (Z.to_nat n) it).

(** The body of the loop of [windows]: [result.append(result[-1][1:] + [e])].
    [result] is never empty, it starts with one window. *)
Definition windows_step {A : Type} (result : list (list A)) (e : A)
  : list (list A) :=
  result ++ [tail (default [] (last result)) ++ [e]].

Definition windows {A : Type} (seq : list A) (n : Z) : result (list (list A)) :=
  p ← islice seq n;
  mret (foldl windows_step [p.1] p.2).

(** The contiguous slices [seq[i:i+k]] of a sequence, for every start [i]
    from 0 to [len(seq) - k]; used to describe the result of [windows]. *)
Definition slices {A : Type} (k : nat) (s : list A) : list (list A) :=
  (fun i => take k (drop i s)) <$> seq 0%nat (S (length s - k))%nat.

(** The slices that start at 0, ..., [length p]: the windows built once
    the loop of [windows] has read the elements [p]. *)
Definition built {A : Type} (k : nat) (s p : list A) : list (list A) :=
  (fun i => take k (drop i s)) <$> seq 0%nat (S (length p)).

(** * Properties *)


(** ** Parenthesised spans *)

Section Parentheses.

Implicit Types (c : N) (s t u v pre mid post : list N).

(** The equations of [match_here] on a non-empty text. *)
Lemma match_here_one (k : class) (re : regex) c s :
  match_here (One k :: re) (c :: s) =
  if accepts k c then S <$> match_here re s else None.
Proof. cbn [match_here]. by destruct (accepts k c), (match_here re s). Qed.

Lemma match_here_star (k : class) (re : regex) c s :
  match_here (Star k :: re) (c :: s) =
  if accepts k c then
    match match_here (Star k :: re) s with
    | Some m => Some (S m)
    | None => match_here re (c :: s)
    end
  else match_here re (c :: s).
Proof. reflexivity. Qed.

Lemma closing_none s :
  match_here closing s = None ↔ ord ")" ∉ s.
Proof.
  induction s as [|c s IH].
  - split; [intros _; apply not_elem_of_nil | done].
  - unfold closing in *. rewrite match_here_star, match_here_one.
    cbn [accepts]. rewrite not_elem_of_cons.
    case_bool_decide as Hc; cbn [negb].
    + subst c. cbn. split; [done | by intros [? _]].
    + destruct (match_here _ s) eqn:Hs.
      * split; [done |]. intros [_ Hn]. apply IH in Hn. done.
      * split; [| done]. intros _. split; [congruence | by apply IH].
Qed.

(** The pattern matches at the start of a text exactly when the text
    opens a parenthesis that is closed further on. *)
Lemma parentheses_none c s :
  match_here parentheses_re (c :: s) = None
  ↔ c ≠ ord "(" ∨ ord ")" ∉ s.
Proof.
  unfold parentheses_re. rewrite match_here_one. cbn [accepts].
  fold closing. case_bool_decide as Hc.
  - destruct (match_here closing s) eqn:Hs; cbn.
    + split; [done |]. intros [? | Hn]; [done |].
      apply closing_none in Hn. congruence.
    + split; [| done]. intros _. right. by apply closing_none.
  - split; [| done]. intros _. by left.
Qed.

Lemma parentheses_nonempty s :
  match_here parentheses_re s ≠ Some O.
Proof.
  destruct s as [|c s]; [done |].
  unfold parentheses_re. rewrite match_here_one.
  destruct (accepts _ c); [| done]. by destruct (match_here _ s).
Qed.

(** Substitution by the empty string only deletes characters. *)
Lemma sub_empty_sublist (re : regex) s (skip : nat) :
  sub_empty re skip s `sublist_of` s.
Proof.
  revert skip. induction s as [|c s IH]; intros skip; [constructor |].
  cbn [sub_empty]. destruct skip as [|k].
  - destruct (match_here re (c :: s)) as [[|m]|]; by constructor.
  - by constructor.
Qed.

Lemma sub_empty_chars (re : regex) s (skip : nat) (x : N) :
  x ∈ sub_empty re skip s → x ∈ s.
Proof. intros H. eapply elem_of_sublist; [done | apply sub_empty_sublist]. Qed.

Lemma settled_fixed s :
  settled s → sub_empty parentheses_re O s = s.
Proof.
  induction s as [|c s IH]; [done |].
  intros [Hm Hs]. cbn [sub_empty]. rewrite Hm. f_equal. by apply IH.
Qed.

Lemma sub_empty_settled s (skip : nat) :
  settled (sub_empty parentheses_re skip s).
Proof.
  revert skip. induction s as [|c s IH]; intros skip; [done |].
  cbn [sub_empty]. destruct skip as [|k]; [| apply IH].
  assert (Hkeep : match_here parentheses_re (c :: s) = None →
                  settled (c :: sub_empty parentheses_re O s)).
  { intros Hm. split; [| apply IH].
    apply parentheses_none. apply parentheses_none in Hm as [Hc | Hn];
      [by left | right].
    intros Hin. apply Hn. by eapply sub_empty_chars. }
  destruct (match_here parentheses_re (c :: s)) as [[|m]|] eqn:Hm;
    [| apply IH | by apply Hkeep].
  by apply parentheses_nonempty in Hm.
Qed.

Lemma settled_suffix u s : settled (u ++ s) → settled s.
Proof.
  induction u as [|c u IH]; [done |]. intros [_ H]. by apply IH.
Qed.

Lemma settled_without s :
  ord "(" ∉ s ∨ ord ")" ∉ s → settled s.
Proof.
  induction s as [|c s IH]; [done |].
  rewrite !not_elem_of_cons. intros H. split.
  - apply parentheses_none. destruct H as [[? _] | [_ ?]]; auto.
  - apply IH. tauto.
Qed.

Lemma remove_parentheses_id t :
  ord "(" ∉ t ∨ ord ")" ∉ t → remove_parentheses t = t.
Proof. intros H. by apply settled_fixed, settled_without. Qed.

Lemma closing_some mid post :
  ord ")" ∉ mid →
  match_here closing (mid ++ ord ")" :: post) = Some (S (length mid)).
Proof.
  unfold closing. induction mid as [|c mid IH]; intros Hn.
  - cbn [app]. rewrite match_here_star, match_here_one. reflexivity.
  - apply not_elem_of_cons in Hn as [Hc Hn].
    cbn [app]. rewrite match_here_star. cbn [accepts].
    rewrite bool_decide_false by congruence. cbn [negb].
    by rewrite (IH Hn).
Qed.

Lemma sub_empty_skip (re : regex) u s :
  sub_empty re (length u) (u ++ s) = sub_empty re O s.
Proof. induction u as [|c u IH]; [done |]. apply IH. Qed.

Lemma sub_empty_keep pre s :
  ord "(" ∉ pre →
  sub_empty parentheses_re O (pre ++ s) = pre ++ sub_empty parentheses_re O s.
Proof.
  induction pre as [|c pre IH]; intros Hn; [done |].
  apply not_elem_of_cons in Hn as [Hc Hn].
  cbn [app sub_empty].
  assert (Hm : match_here parentheses_re (c :: pre ++ s) = None).
  { apply parentheses_none. left. congruence. }
  rewrite Hm. by rewrite IH.
Qed.

End Parentheses.

(** C5. [remove_parentheses] is idempotent: applying it to its own result
    changes nothing. *)
Theorem remove_parentheses_idempotent (t : list N) :
  remove_parentheses (remove_parentheses t) = remove_parentheses t.
Proof.
  unfold remove_parentheses. apply settled_fixed, sub_empty_settled.
Qed.

(** ** Sliding windows *)

Section Windows.

Context {A : Type}.
Implicit Types (s w : list A) (n : Z) (k : nat) (r : list (list A)).

Lemma islice_ok s n :
  0 ≤ n ≤ sys_maxsize →
  islice s n = Ok (take (Z.to_nat n) s, drop (Z.to_nat n) s).
Proof.
  intros Hn. unfold islice.
  rewrite (proj2 (Z.ltb_ge n 0)), (proj2 (Z.ltb_ge sys_maxsize n)) by lia.
  done.
Qed.

Lemma islice_raise s n :
  n < 0 ∨ sys_maxsize < n → islice s n = Raise ValueError.
Proof.
  intros Hn. unfold islice.
  destruct (Z.ltb_spec n 0); [done |].
  destruct (Z.ltb_spec sys_maxsize n); [done | lia].
Qed.

(** [windows] raises exactly on a width that [islice] refuses, and then
    [ValueError]. *)
Lemma windows_raise_iff s n (e : exception) :
  windows s n = Raise e ↔ e = ValueError ∧ (n < 0 ∨ sys_maxsize < n).
Proof.
  unfold windows.
  destruct (decide (0 ≤ n ≤ sys_maxsize)) as [Hn | Hn].
  - rewrite islice_ok by done. cbn. split; [done | lia].
  - rewrite islice_raise by lia. cbn. split; [| by intros [-> _]].
    intros [= <-]. split; [done | lia].
Qed.

Lemma windows_ok s n :
  0 ≤ n ≤ sys_maxsize →
  windows s n =
  Ok (foldl windows_step [take (Z.to_nat n) s] (drop (Z.to_nat n) s)).
Proof. intros Hn. unfold windows. by rewrite islice_ok. Qed.

(** One turn of the loop: dropping the head of the slice at [i] and
    appending the element behind it gives the slice at [i + 1]. *)
Lemma slide k s (i : nat) (e : A) :
  s !! (S k + i)%nat = Some e →
  tail (take (S k) (drop i s)) ++ [e] = take (S k) (drop (S i) s).
Proof.
  intros He.
  assert (is_Some (s !! i)) as [x Hx].
  { apply lookup_lt_is_Some. apply lookup_lt_Some in He. lia. }
  rewrite (drop_S _ _ _ Hx). cbn [take tail].
  symmetry. apply take_S_r. rewrite lookup_drop. rewrite <- He. f_equal. lia.
Qed.

Lemma built_snoc k s (p : list A) (e : A) :
  s !! (S k + length p)%nat = Some e →
  windows_step (built (S k) s p) e = built (S k) s (p ++ [e]).
Proof.
  intros He. unfold windows_step, built.
  rewrite length_app. cbn [length].
  replace (S (length p + 1)) with (S (S (length p))) by lia.
  rewrite (seq_S (S (length p))), fmap_app. cbn [fmap list_fmap].
  f_equal. f_equal.
  rewrite fmap_last, seq_S, last_snoc. cbn [fmap option_fmap option_map default].
  rewrite Nat.add_0_l. by apply slide.
Qed.

Lemma foldl_built k s (q p : list A) :
  drop (S k) s = p ++ q →
  foldl windows_step (built (S k) s p) q = built (S k) s (p ++ q).
Proof.
  revert p. induction q as [|e q IH]; intros p Hs.
  - by rewrite app_nil_r.
  - cbn [foldl]. rewrite built_snoc.
    + rewrite IH; rewrite <- app_assoc; done.
    + rewrite <- lookup_drop, Hs. by apply list_lookup_middle.
Qed.

(** For a width from 1 to [sys.maxsize] the loop computes the contiguous
    slices. *)
Lemma windows_slices s n :
  1 ≤ n ≤ sys_maxsize → windows s n = Ok (slices (Z.to_nat n) s).
Proof.
  intros Hn. rewrite windows_ok by lia. f_equal.
  destruct (Z.to_nat n) as [|k] eqn:Hk; [lia |].
  change [take (S k) s] with (built (S k) s []).
  rewrite foldl_built by done. unfold built, slices.
  by rewrite app_nil_l, length_drop.
Qed.

(** Width 0 is accepted: an empty window, then one window per element. *)
Lemma foldl_windows_step_short s (acc : list (list A)) w :
  (length w ≤ 1)%nat →
  foldl windows_step (acc ++ [w]) s = acc ++ [w] ++ ((fun e => [e]) <$> s).
Proof.
  revert acc w. induction s as [|e s IH]; intros acc w Hw; [done |].
  cbn [foldl]. unfold windows_step at 2. rewrite last_snoc. cbn [default id].
  assert (Ht : tail w = []).
  { destruct w as [|x [|y w]]; [done | done | cbn in Hw; lia]. }
  rewrite Ht, app_nil_l, IH by (cbn; lia). by rewrite <- app_assoc.
Qed.

Lemma windows_zero_width s :
  windows s 0 = Ok ([] :: ((fun e => [e]) <$> s)).
Proof.
  rewrite windows_ok by done. f_equal. cbn [Z.to_nat take drop].
  apply (foldl_windows_step_short s [] []). cbn. lia.
Qed.

Lemma length_slices k s : length (slices k s) = S (length s - k).
Proof. unfold slices. by rewrite length_fmap, length_seq. Qed.

Lemma lookup_slices k s (i : nat) :
  slices k s !! i =
  if decide (i ≤ length s - k)%nat then Some (take k (drop i s)) else None.
Proof.
  unfold slices. rewrite list_lookup_fmap. case_decide.
  - by rewrite lookup_seq_lt by lia.
  - by rewrite lookup_seq_ge by lia.
Qed.

(** C1. For a width between 1 and the length of the sequence, [windows]
    returns [len(s) - n + 1] windows, each of length [n], and the last
    elements of the windows, in order, are [s[n-1:]].  A Python list holds
    at most [sys.maxsize] elements. *)
Theorem windows_count_width_last s n :
  Z.of_nat (length s) ≤ sys_maxsize →
  1 ≤ n ≤ Z.of_nat (length s) →
  ∃ r : list (list A),
    windows s n = Ok r
    ∧ Z.of_nat (length r) = Z.of_nat (length s) - n + 1
    ∧ Forall (fun w => Z.of_nat (length w) = n) r
    ∧ last <$> r = Some <$> drop (Z.to_nat (n - 1)) s.
Proof.
  intros Hmax Hn. exists (slices (Z.to_nat n) s).
  split; [apply windows_slices; lia |].
  set (k := Z.to_nat n). assert (Hk : (1 ≤ k ≤ length s)%nat) by lia.
  replace n with (Z.of_nat k) by lia. clear Hn Hmax.
  replace (Z.to_nat (Z.of_nat k - 1)) with (k - 1)%nat by lia.
  split; [rewrite length_slices; lia |]. split.
  - apply Forall_lookup. intros i w. rewrite lookup_slices.
    case_decide; [| done]. intros [= <-].
    rewrite length_take, length_drop. lia.
  - apply list_eq. intros i. rewrite !list_lookup_fmap, lookup_slices.
    rewrite lookup_drop. case_decide; cbn.
    + rewrite last_lookup, length_take, length_drop.
      replace (pred (k `min` (length s - i)))%nat with (k - 1)%nat by lia.
      rewrite lookup_take_lt by lia. rewrite lookup_drop.
      replace (i + (k - 1))%nat with (k - 1 + i)%nat by lia.
      destruct (lookup_lt_is_Some_2 s (k - 1 + i)%nat) as [x ->]; [lia | done].
    + by rewrite lookup_ge_None_2 by lia.
Qed.

(** C4, amended. [windows] fails only for a width that is not positive or
    is above [sys.maxsize], and then with [ValueError]; for every width
    from 1 to [sys.maxsize] it returns a result. *)
Theorem windows_fails_only_out_of_range s n :
  (∀ e : exception,
      windows s n = Raise e → e = ValueError ∧ (n ≤ 0 ∨ sys_maxsize < n))
  ∧ (1 ≤ n ≤ sys_maxsize → ∃ r : list (list A), windows s n = Ok r).
Proof.
  split.
  - intros e [-> Hn]%windows_raise_iff. split; [done | lia].
  - intros Hn. eexists. by apply windows_slices.
Qed.

(** C8, amended. For a width from 1 to [sys.maxsize], the first window is
    [seq[:n]], every later window is the one before it without its head
    and with the next element of the sequence appended, and a sequence
    shorter than the width gives the single window [seq]; no error is
    raised. *)
Theorem windows_first_then_slide s n :
  1 ≤ n ≤ sys_maxsize →
  ∃ r : list (list A),
    windows s n = Ok r
    ∧ r !! 0%nat = Some (take (Z.to_nat n) s)
    ∧ (∀ (i : nat) (w w' : list A),
         r !! i = Some w → r !! S i = Some w' →
         ∃ e : A, s !! (Z.to_nat n + i)%nat = Some e ∧ w' = tail w ++ [e])
    ∧ length r = S (length s - Z.to_nat n)
    ∧ (Z.of_nat (length s) < n → r = [s]).
Proof.
  intros Hn. exists (slices (Z.to_nat n) s).
  split; [by apply windows_slices |].
  destruct (Z.to_nat n) as [|k] eqn:Hk; [lia |].
  split; [| split; [| split]].
  - rewrite lookup_slices. by rewrite decide_True by lia.
  - intros i w w'. rewrite !lookup_slices.
    case_decide; [| done]. intros [= <-].
    case_decide; [| done]. intros [= <-].
    destruct (lookup_lt_is_Some_2 s (S k + i)%nat) as [e He]; [lia |].
    exists e. split; [done |]. symmetry. by apply slide.
  - apply length_slices.
  - intros Hshort. unfold slices.
    replace (length s - S k)%nat with 0%nat by lia. cbn.
    f_equal. apply take_ge. lia.
Qed.

(** X1. [windows] raises exactly for a width that is negative or above
    [sys.maxsize], and the only exception it raises is [ValueError];
    width 0 is accepted and gives an empty window followed by one window
    of width 1 for every element. *)
Theorem windows_raises_iff_out_of_range s n :
  (windows s n = Raise ValueError ↔ n < 0 ∨ sys_maxsize < n)
  ∧ (∀ e : exception, windows s n = Raise e → e = ValueError)
  ∧ windows s 0 = Ok ([] :: ((fun e => [e]) <$> s)).
Proof.
  split; [| split].
  - rewrite windows_raise_iff. split; [by intros [_ ?] | done].
  - by intros e [-> _]%windows_raise_iff.
  - apply windows_zero_width.
Qed.

(** A width for which [windows] returns is not above [sys.maxsize]. *)
Lemma windows_ok_width s n r : windows s n = Ok r → 0 ≤ n ≤ sys_maxsize.
Proof.
  intros Hr. destruct (decide (0 ≤ n ≤ sys_maxsize)) as [| Hn]; [done |].
  assert (windows s n = Raise ValueError); [| congruence].
  apply windows_raise_iff. split; [done | lia].
Qed.

(** X2. For a width from 1 on, the window at position [i] is the slice
    [seq[i:i+n]]. *)
Theorem windows_nth_slice s n r (i : nat) w :
  1 ≤ n → windows s n = Ok r → r !! i = Some w →
  w = take (Z.to_nat n) (drop i s).
Proof.
  intros Hn Hr Hw. pose proof (windows_ok_width _ _ _ Hr) as Hmax.
  rewrite windows_slices in Hr by lia.
  injection Hr as <-. rewrite lookup_slices in Hw.
  case_decide; [| done]. by injection Hw.
Qed.

(** The last elements of the slices behind the first one are the
    elements behind the first slice. *)
Lemma slices_tail_last (k : nat) s :
  last <$> ((fun i => take (S k) (drop i s))
            <$> seq 1%nat (length s - S k)%nat)
  = Some <$> drop (S k) s.
Proof.
  apply list_eq. intros i. rewrite !list_lookup_fmap, lookup_drop.
  destruct (decide (i < length s - S k)%nat) as [Hi | Hi].
  - rewrite lookup_seq_lt by done. cbn [fmap option_fmap option_map].
    rewrite last_lookup, length_take, length_drop.
    replace (pred (S k `min` (length s - (1 + i))))%nat with k by lia.
    rewrite lookup_take_lt by lia. rewrite lookup_drop.
    replace (1 + i + k)%nat with (S k + i)%nat by lia.
    destruct (lookup_lt_is_Some_2 s (S k + i)%nat) as [x ->]; [lia | done].
  - rewrite lookup_seq_ge by lia. cbn.
    by rewrite lookup_ge_None_2 by lia.
Qed.

(** X3. For a width from 1 to [sys.maxsize], the sequence can be read
    back from the windows: it is the first window followed by the last
    element of every later window. *)
Theorem windows_recover s n :
  1 ≤ n ≤ sys_maxsize →
  ∃ (w0 : list A) (ws : list (list A)) (xs : list A),
    windows s n = Ok (w0 :: ws)
    ∧ last <$> ws = Some <$> xs
    ∧ s = w0 ++ xs.
Proof.
  intros Hn. rewrite windows_slices by done.
  destruct (Z.to_nat n) as [|k] eqn:Hk; [lia |].
  exists (take (S k) s),
    ((fun i => take (S k) (drop i s)) <$> seq 1%nat (length s - S k)%nat),
    (drop (S k) s).
  split; [done |]. split; [apply slices_tail_last |].
  by rewrite take_drop.
Qed.

End Windows.

(** ** The vocabulary *)

Section Vocabulary.

Implicit Types (st : scan_state) (w word : list N) (ws : list (list N)).

(** The two nested loops are one loop over the words of the corpus. *)
Lemma scan_words st (cleaned : list (list N * list (list N))) :
  scan st cleaned = foldl scan_word st (corpus_words cleaned).
Proof.
  revert st. unfold scan, corpus_words.
  induction cleaned as [|[name text] cleaned IH]; intros st; [done |].
  cbn [foldl fmap list_fmap mjoin list_join snd]. by rewrite foldl_app, IH.
Qed.

Lemma scan_word_seen st word (i : Z) :
  st.1 !! word = Some i → scan_word st word = st.
Proof. intros H. unfold scan_word. by rewrite H. Qed.

Lemma scan_word_fresh st word :
  st.1 !! word = None →
  scan_word st word = (<[ word := st.2 ]> st.1, st.2 + 1).
Proof. intros H. unfold scan_word. by rewrite H. Qed.

Lemma init_ok : vocabulary_ok scan_init.
Proof.
  unfold scan_init. split; cbn [fst snd].
  - by rewrite lookup_insert_eq.
  - by rewrite lookup_insert_ne, lookup_singleton_eq.
  - lia.
  - intros w i. rewrite lookup_insert. case_decide; [intros [= <-]; lia |].
    rewrite lookup_singleton. case_decide; [intros [= <-]; lia | done].
  - intros w1 w2 i. rewrite !lookup_insert, !lookup_singleton.
    repeat case_decide; intros; simplify_eq; done.
Qed.

Lemma scan_word_ok st word : vocabulary_ok st → vocabulary_ok (scan_word st word).
Proof.
  intros Hok. destruct (st.1 !! word) as [i|] eqn:Hw.
  { by rewrite (scan_word_seen _ _ _ Hw). }
  rewrite (scan_word_fresh _ _ Hw). destruct Hok. split; cbn [fst snd].
  - rewrite lookup_insert_ne; [done | congruence].
  - rewrite lookup_insert_ne; [done | congruence].
  - lia.
  - intros w i. rewrite lookup_insert. case_decide; [intros [= <-]; lia |].
    intros Hi%ok_below0. lia.
  - intros w1 w2 i. rewrite !lookup_insert.
    repeat case_decide; intros H1 H2; simplify_eq; try done.
    + apply ok_below0 in H2. lia.
    + apply ok_below0 in H1. lia.
    + by eapply ok_unique0.
Qed.

Lemma scan_ok st ws : vocabulary_ok st → vocabulary_ok (foldl scan_word st ws).
Proof.
  revert st. induction ws as [|w ws IH]; intros st Hok; [done |].
  cbn [foldl]. by apply IH, scan_word_ok.
Qed.

(** An id, once in the dictionary, stays. *)
Lemma scan_word_stable st word w (i : Z) :
  st.1 !! w = Some i → (scan_word st word).1 !! w = Some i.
Proof.
  intros H. destruct (st.1 !! word) as [j|] eqn:Hw.
  { by rewrite (scan_word_seen _ _ _ Hw). }
  rewrite (scan_word_fresh _ _ Hw). cbn [fst].
  rewrite lookup_insert_ne; [done | congruence].
Qed.

Lemma scan_stable st ws w (i : Z) :
  st.1 !! w = Some i → (foldl scan_word st ws).1 !! w = Some i.
Proof.
  revert st. induction ws as [|word ws IH]; intros st H; [done |].
  cbn [foldl]. by apply IH, scan_word_stable.
Qed.

(** A word is in the dictionary after the loop exactly when it was
    there before or has been read. *)
Lemma scan_absent st ws w :
  st.1 !! w = None → w ∉ ws → (foldl scan_word st ws).1 !! w = None.
Proof.
  revert st. induction ws as [|word ws IH]; intros st H Hn; [done |].
  apply not_elem_of_cons in Hn as [Hne Hn]. cbn [foldl]. apply IH; [| done].
  destruct (st.1 !! word) as [j|] eqn:Hw.
  { by rewrite (scan_word_seen _ _ _ Hw). }
  rewrite (scan_word_fresh _ _ Hw). cbn [fst]. by rewrite lookup_insert_ne.
Qed.

Lemma scan_present st ws w :
  w ∈ ws → is_Some ((foldl scan_word st ws).1 !! w).
Proof.
  revert st. induction ws as [|word ws IH]; intros st Hin.
  { by apply elem_of_nil in Hin. }
  cbn [foldl]. apply elem_of_cons in Hin as [-> | Hin]; [| by apply IH].
  assert (is_Some ((scan_word st word).1 !! word)) as [i Hi].
  { destruct (st.1 !! word) as [j|] eqn:Hw.
    - rewrite (scan_word_seen _ _ _ Hw). eauto.
    - rewrite (scan_word_fresh _ _ Hw). cbn [fst].
      rewrite lookup_insert_eq. eauto. }
  exists i. by apply scan_stable.
Qed.

Lemma bag_of_words_words (cleaned : list (list N * list (list N))) :
  bag_of_words cleaned = (foldl scan_word scan_init (corpus_words cleaned)).1.
Proof. unfold bag_of_words. by rewrite scan_words. Qed.

(** In a state the loop can reach, id 0 belongs to the right pad and
    id 1 to the left pad, and to nothing else. *)
Lemma ok_sentinels st w (i : Z) :
  vocabulary_ok st → st.1 !! w = Some i →
  (i = 0 ↔ w = rpad) ∧ (i = 1 ↔ w = lpad).
Proof.
  intros [Hr Hl _ _ Hu] Hw. split; split.
  - intros ->. by apply (Hu _ _ 0).
  - intros ->. congruence.
  - intros ->. by apply (Hu _ _ 1).
  - intros ->. congruence.
Qed.

(** C6. The dictionary built by the loop gives every token of the corpus
    an id and no id to two tokens; a token read for the first time gets a
    larger id than every token read before it; an id in the dictionary at
    any point of the loop is still there at the end; and the result is
    determined by the ordered token lists of the corpus. *)
Theorem vocabulary_unique_increasing_stable
    (cleaned : list (list N * list (list N))) :
  (∀ w : list N,
      w ∈ corpus_words cleaned → is_Some (bag_of_words cleaned !! w))
  ∧ (∀ (w1 w2 : list N) (i : Z),
      bag_of_words cleaned !! w1 = Some i →
      bag_of_words cleaned !! w2 = Some i → w1 = w2)
  ∧ (∀ (pre post : list (list N)) (w1 w2 : list N),
      corpus_words cleaned = pre ++ w2 :: post →
      w1 ∈ pre → w2 ∉ pre → w2 ≠ lpad → w2 ≠ rpad →
      ∃ i1 i2 : Z,
        bag_of_words cleaned !! w1 = Some i1
        ∧ bag_of_words cleaned !! w2 = Some i2
        ∧ i1 < i2)
  ∧ (∀ (pre post : list (list N)) (w : list N) (i : Z),
      corpus_words cleaned = pre ++ post →
      (foldl scan_word scan_init pre).1 !! w = Some i →
      bag_of_words cleaned !! w = Some i)
  ∧ (∀ cleaned' : list (list N * list (list N)),
      cleaned'.*2 = cleaned.*2 →
      bag_of_words cleaned' = bag_of_words cleaned).
Proof.
  rewrite bag_of_words_words. split; [| split; [| split; [| split]]].
  - intros w. apply scan_present.
  - apply ok_unique, scan_ok, init_ok.
  - intros pre post w1 w2 -> H1 H2 Hl Hr.
    rewrite foldl_app. cbn [foldl].
    set (st := foldl scan_word scan_init pre).
    assert (Hok : vocabulary_ok st) by apply scan_ok, init_ok.
    destruct (scan_present scan_init pre w1 H1) as [i1 Hi1]. fold st in Hi1.
    assert (Hw2 : st.1 !! w2 = None).
    { apply scan_absent; [| done]. unfold scan_init. cbn [fst].
      rewrite lookup_insert_ne by done. by rewrite lookup_singleton_ne. }
    exists i1, st.2. split; [| split].
    + by apply scan_stable, scan_word_stable.
    + apply scan_stable. rewrite (scan_word_fresh _ _ Hw2). cbn [fst].
      by rewrite lookup_insert_eq.
    + by apply (ok_below _ Hok) in Hi1 as [_ ?].
  - intros pre post w i -> Hw. rewrite foldl_app. by apply scan_stable.
  - intros cleaned' Heq. rewrite bag_of_words_words.
    unfold corpus_words. by rewrite Heq.
Qed.

(** C7. Whatever the corpus, the right pad has id 0 and the left pad has
    id 1 when the loop is done and at every point on the way, and no other
    token holds id 0 or id 1. *)
Theorem sentinels_keep_ids (cleaned : list (list N * list (list N))) :
  bag_of_words cleaned !! rpad = Some 0
  ∧ bag_of_words cleaned !! lpad = Some 1
  ∧ (∀ (w : list N) (i : Z),
      bag_of_words cleaned !! w = Some i →
      (i = 0 ↔ w = rpad) ∧ (i = 1 ↔ w = lpad))
  ∧ (∀ (pre post : list (list N)),
      corpus_words cleaned = pre ++ post →
      (foldl scan_word scan_init pre).1 !! rpad = Some 0
      ∧ (foldl scan_word scan_init pre).1 !! lpad = Some 1
      ∧ ∀ (w : list N) (i : Z),
          (foldl scan_word scan_init pre).1 !! w = Some i →
          (i = 0 ↔ w = rpad) ∧ (i = 1 ↔ w = lpad)).
Proof.
  rewrite bag_of_words_words.
  assert (Hall : ∀ ws : list (list N),
    (foldl scan_word scan_init ws).1 !! rpad = Some 0
    ∧ (foldl scan_word scan_init ws).1 !! lpad = Some 1
    ∧ ∀ (w : list N) (i : Z),
        (foldl scan_word scan_init ws).1 !! w = Some i →
        (i = 0 ↔ w = rpad) ∧ (i = 1 ↔ w = lpad)).
  { intros ws0.
    assert (Hok : vocabulary_ok (foldl scan_word scan_init ws0))
      by apply scan_ok, init_ok.
    split; [apply Hok | split; [apply Hok |]].
    intros w i. by apply ok_sentinels. }
  destruct (Hall (corpus_words cleaned)) as (Hr & Hl & Hw).
  split; [done | split; [done | split; [done |]]].
  intros pre post _. apply Hall.
Qed.

End Vocabulary.

(** ** The vocabulary: dense ids, domain, known words *)

Section VocabularyMore.

Implicit Types (st : scan_state) (w word : list N) (ws : list (list N)).

(** The loop keeps [index] equal to the number of entries, and every
    number below [index] is the id of some word. *)
Lemma scan_word_dense st word :
  vocabulary_ok st →
  (∀ i : Z, 0 ≤ i < st.2 → ∃ w, st.1 !! w = Some i) →
  Z.of_nat (size st.1) = st.2 →
  (∀ i : Z, 0 ≤ i < (scan_word st word).2 →
            ∃ w, (scan_word st word).1 !! w = Some i)
  ∧ Z.of_nat (size (scan_word st word).1) = (scan_word st word).2.
Proof.
  intros Hok Hd Hs. destruct (st.1 !! word) as [j|] eqn:Hw.
  { by rewrite (scan_word_seen _ _ _ Hw). }
  rewrite (scan_word_fresh _ _ Hw). cbn [fst snd]. split.
  - intros i Hi. destruct (decide (i = st.2)) as [-> | Hne].
    + exists word. by rewrite lookup_insert_eq.
    + destruct (Hd i) as [w Hi']; [lia |]. exists w.
      rewrite lookup_insert_ne; [done | congruence].
  - rewrite map_size_insert_None by done. lia.
Qed.

Lemma scan_dense st ws :
  vocabulary_ok st →
  (∀ i : Z, 0 ≤ i < st.2 → ∃ w, st.1 !! w = Some i) →
  Z.of_nat (size st.1) = st.2 →
  (∀ i : Z, 0 ≤ i < (foldl scan_word st ws).2 →
            ∃ w, (foldl scan_word st ws).1 !! w = Some i)
  ∧ Z.of_nat (size (foldl scan_word st ws).1) = (foldl scan_word st ws).2.
Proof.
  revert st. induction ws as [|word ws IH]; intros st Hok Hd Hs; [done |].
  cbn [foldl]. destruct (scan_word_dense st word Hok Hd Hs) as [Hd' Hs'].
  apply IH; [by apply scan_word_ok | done | done].
Qed.

Lemma init_dense :
  (∀ i : Z, 0 ≤ i < scan_init.2 → ∃ w, scan_init.1 !! w = Some i)
  ∧ Z.of_nat (size scan_init.1) = scan_init.2.
Proof.
  unfold scan_init. cbn [fst snd]. split.
  - intros i Hi. destruct (decide (i = 0)) as [-> | Hne].
    + exists rpad. by rewrite lookup_insert_eq.
    + exists lpad. rewrite lookup_insert_ne by done.
      rewrite lookup_singleton_eq. f_equal. lia.
  - rewrite map_size_insert_None by by rewrite lookup_singleton_ne.
    by rewrite map_size_singleton.
Qed.

(** X4. The ids of the dictionary are exactly the numbers from 0 up to,
    but not including, the final [index], and [index] is the number of
    entries. *)
Theorem vocabulary_ids_dense (cleaned : list (list N * list (list N))) :
  (∀ i : Z,
      (∃ w : list N, bag_of_words cleaned !! w = Some i)
      ↔ 0 ≤ i < (scan scan_init cleaned).2)
  ∧ Z.of_nat (size (bag_of_words cleaned)) = (scan scan_init cleaned).2.
Proof.
  unfold bag_of_words. rewrite scan_words.
  destruct init_dense as [Hd Hs].
  destruct (scan_dense scan_init (corpus_words cleaned) init_ok Hd Hs)
    as [Hd' Hs'].
  split; [| done]. intros i. split; [| apply Hd'].
  intros [w Hw]. eapply ok_below; [| done]. apply scan_ok, init_ok.
Qed.

Lemma bag_of_words_lookup (cleaned : list (list N * list (list N))) w :
  is_Some (bag_of_words cleaned !! w)
  ↔ w = rpad ∨ w = lpad ∨ w ∈ corpus_words cleaned.
Proof.
  rewrite bag_of_words_words. split.
  - intros Hw. destruct (decide (w = rpad)) as [| Hr]; [by left |].
    destruct (decide (w = lpad)) as [| Hl]; [by auto |].
    destruct (decide (w ∈ corpus_words cleaned)) as [| Hn]; [by auto |].
    rewrite scan_absent in Hw; [by destruct Hw | | done].
    unfold scan_init. cbn [fst].
    rewrite lookup_insert_ne by done. by rewrite lookup_singleton_ne.
  - assert (Hok : vocabulary_ok
                    (foldl scan_word scan_init (corpus_words cleaned)))
      by apply scan_ok, init_ok.
    intros [-> | [-> | Hin]].
    + rewrite (ok_rpad _ Hok). eauto.
    + rewrite (ok_lpad _ Hok). eauto.
    + by apply scan_present.
Qed.

(** X5. The dictionary holds the two sentinels and the words of the
    corpus, and nothing else. *)
Theorem bag_of_words_domain (cleaned : list (list N * list (list N))) w :
  is_Some (bag_of_words cleaned !! w)
  ↔ w = rpad ∨ w = lpad ∨ w ∈ corpus_words cleaned.
Proof. apply bag_of_words_lookup. Qed.

(** Reading words that are in the dictionary changes nothing. *)
Lemma scan_known st ws :
  (∀ w, w ∈ ws → is_Some (st.1 !! w)) → foldl scan_word st ws = st.
Proof.
  induction ws as [|word ws IH]; intros Hall; [done |].
  cbn [foldl]. destruct (Hall word) as [i Hi]; [by left |].
  rewrite (scan_word_seen _ _ _ Hi). apply IH.
  intros w Hw. apply Hall. by right.
Qed.

Lemma corpus_words_app (c1 c2 : list (list N * list (list N))) :
  corpus_words (c1 ++ c2) = corpus_words c1 ++ corpus_words c2.
Proof. unfold corpus_words. by rewrite fmap_app, join_app. Qed.

(** X6. Texts whose words are all sentinels or words of the corpus read
    so far add nothing: the dictionary and [index] stay as they are. *)
Theorem scan_known_corpus (c1 c2 : list (list N * list (list N))) :
  (∀ w, w ∈ corpus_words c2 →
        w = rpad ∨ w = lpad ∨ w ∈ corpus_words c1) →
  scan scan_init (c1 ++ c2) = scan scan_init c1.
Proof.
  intros Hknown. rewrite !scan_words, corpus_words_app, foldl_app.
  apply scan_known. intros w Hw.
  assert (Hok : vocabulary_ok (foldl scan_word scan_init (corpus_words c1)))
    by apply scan_ok, init_ok.
  destruct (Hknown w Hw) as [-> | [-> | Hin]].
  - rewrite (ok_rpad _ Hok). eauto.
  - rewrite (ok_lpad _ Hok). eauto.
  - by apply scan_present.
Qed.

End VocabularyMore.

(** ** Characters: what the tables say *)

Section Characters.

Implicit Types (c d x : N) (s before after : list N).

Lemma in_ranges_points (t : list (N * N)) c :
  in_ranges t c = true → c ∈ range_points t.
Proof.
  unfold range_points. induction t as [|[lo hi] t IH]; [done |].
  cbn [in_ranges]. rewrite bind_cons, elem_of_app.
  destruct (N.ltb_spec c lo); [done |].
  destruct (N.leb_spec c hi); [intros _; left | by right; apply IH].
  apply list_elem_of_fmap. exists (N.to_nat (c - lo)). cbn [fst snd].
  split; [lia |]. apply elem_of_seq. lia.
Qed.

(** A test that holds for the whitespace of the table holds for every
    whitespace character. *)
Lemma space_forall (P : N → bool) c :
  forallb P (range_points space_ranges) = true →
  isspace c = true → P c = true.
Proof.
  intros HP Hc%in_ranges_points.
  rewrite forallb_forall in HP. by apply HP, list_elem_of_In.
Qed.

(** A test that holds for the 256 code points of Latin-1. *)
Lemma latin1_forall (P : N → bool) c :
  forallb P (N.of_nat <$> seq 0 256) = true → (c < 256)%N → P c = true.
Proof.
  intros HP Hc. rewrite forallb_forall in HP. apply HP, list_elem_of_In.
  apply list_elem_of_fmap. exists (N.to_nat c).
  split; [lia |]. apply elem_of_seq. lia.
Qed.

(** Whitespace is not alphanumeric, is none of the kept symbols, and is
    its own lower case. *)
Lemma space_facts c :
  isspace c = true →
  isalnum c = false ∧ is_kept_symbol c = false ∧ c ≠ ord "}"
  ∧ c ≠ 931%N ∧ lower_full c = [c].
Proof.
  intros Hc.
  pose proof (space_forall
    (fun c => negb (isalnum c) && negb (is_kept_symbol c)
              && negb (bool_decide (c = ord "}"))
              && negb (bool_decide (c = 931%N))
              && bool_decide (lower_full c = [c])) c) as H.
  cbv beta in H. specialize (H ltac:(vm_compute; reflexivity) Hc).
  repeat (apply andb_true_iff in H as [H ?]).
  repeat match goal with
         | H : negb _ = true |- _ => apply negb_true_iff in H
         | H : bool_decide _ = true |- _ => apply bool_decide_eq_true in H
         | H : bool_decide _ = false |- _ => apply bool_decide_eq_false in H
         end.
  done.
Qed.

Lemma newline_is_space c :
  c ∈ [ord "010"; ord "013"; ord "009"] → isspace c = true.
Proof.
  rewrite !elem_of_cons, elem_of_nil. by intros [-> | [-> | [-> | []]]].
Qed.

Lemma lookup_run_unguarded (t : list (N * N * N * N)) c x :
  forallb run_unguarded t = true →
  lookup_run t c = Some x → guarded x = false.
Proof.
  induction t as [|[[[lo hi] stride] target] t IH]; [done |].
  cbn [forallb lookup_run]. intros [Hr Ht]%andb_true_iff.
  destruct (N.ltb_spec c lo); [done |].
  destruct (N.leb_spec c hi); cbn [andb]; [| by apply IH].
  destruct ((c - lo) mod stride =? 0)%N; [| by apply IH].
  intros [= <-]. unfold run_unguarded in Hr.
  rewrite forallb_forall in Hr.
  specialize (Hr (N.to_nat (c - lo))). rewrite N2Nat.id in Hr.
  apply negb_true_iff, Hr, in_seq. lia.
Qed.

(** [str.lower] yields whitespace and ASCII punctuation for these
    characters themselves only. *)
Lemma lower_at_guarded before c after x :
  x ∈ lower_at before c after → guarded x = true → x = c.
Proof.
  unfold lower_at, lower_full.
  destruct (N.eqb_spec c 931) as [-> | _].
  { intros ->%list_elem_of_singleton. by destruct (final_sigma _ _). }
  destruct (N.eqb_spec c 304) as [-> | _].
  { rewrite !elem_of_cons, elem_of_nil. by intros [-> | [-> | []]]. }
  destruct (lookup_run lower_runs c) as [y|] eqn:Hy;
    intros ->%list_elem_of_singleton; [| done].
  intros Hg. apply lookup_run_unguarded in Hy; [congruence |].
  vm_compute. reflexivity.
Qed.

Lemma lower_at_space before c after :
  isspace c = true → lower_at before c after = [c].
Proof.
  intros (_ & _ & _ & Hs & Hl)%space_facts. unfold lower_at.
  by destruct (N.eqb_spec c 931).
Qed.

(** Every character of [s.lower()] comes from a character of [s]. *)
Lemma lower_go_elem before s x :
  x ∈ lower_go before s →
  ∃ d b a, d ∈ s ∧ x ∈ lower_at b d a.
Proof.
  revert before. induction s as [|c s IH]; intros before.
  { by intros ?%elem_of_nil. }
  cbn [lower_go]. rewrite elem_of_app. intros [Hx | Hx].
  - exists c, before, s. split; [by left | done].
  - destruct (IH _ Hx) as (d & b & a & Hd & Hda).
    exists d, b, a. split; [by right | done].
Qed.

(** For Latin-1, [str.lower] works character by character. *)
Lemma latin1_lower c :
  (c < 256)%N →
  c ≠ 931%N ∧ lower_full c = [lower_char c] ∧ (lower_char c < 256)%N
  ∧ lower_char (lower_char c) = lower_char c.
Proof.
  intros Hc.
  pose proof (latin1_forall
    (fun c => negb (bool_decide (c = 931%N))
              && bool_decide (lower_full c = [lower_char c])
              && (lower_char c <? 256)%N
              && bool_decide (lower_char (lower_char c) = lower_char c)) c)
    as H.
  cbv beta in H. specialize (H ltac:(vm_compute; reflexivity) Hc).
  repeat (apply andb_true_iff in H as [H ?]).
  apply negb_true_iff, bool_decide_eq_false in H.
  repeat match goal with
         | H : bool_decide _ = true |- _ => apply bool_decide_eq_true in H
         | H : (_ <? _)%N = true |- _ => apply N.ltb_lt in H
         end.
  done.
Qed.

(** Lower case changes none of the tests the tokenizer makes on a
    Latin-1 character. *)
Lemma latin1_tests c :
  (c < 256)%N →
  isspace (lower_char c) = isspace c
  ∧ isalnum (lower_char c) = isalnum c
  ∧ is_kept_symbol (lower_char c) = is_kept_symbol c
  ∧ (∀ p, p ∈ [ord "("; ord ")"; ord "}"; ord " "; ord "010"; ord "013";
               ord "009"] →
          bool_decide (lower_char c = p) = bool_decide (c = p))
  ∧ (is_word_char c = true → isupper (lower_char c) = false).
Proof.
  intros Hc.
  pose proof (latin1_forall
    (fun c => bool_decide (isspace (lower_char c) = isspace c)
              && bool_decide (isalnum (lower_char c) = isalnum c)
              && bool_decide (is_kept_symbol (lower_char c) = is_kept_symbol c)
              && forallb (fun p => bool_decide
                            (bool_decide (lower_char c = p)
                             = bool_decide (c = p)))
                   [ord "("; ord ")"; ord "}"; ord " "; ord "010";
                    ord "013"; ord "009"]
              && (negb (is_word_char c) || negb (isupper (lower_char c)))) c)
    as H.
  cbv beta in H. specialize (H ltac:(vm_compute; reflexivity) Hc).
  repeat (apply andb_true_iff in H as [H ?]).
  repeat match goal with
         | H : bool_decide _ = true |- _ => apply bool_decide_eq_true in H
         end.
  split; [done |]. split; [done |]. split; [done |]. split.
  - intros p Hp%list_elem_of_In.
    match goal with H : forallb _ _ = true |- _ =>
      rewrite forallb_forall in H; apply H in Hp end.
    by apply bool_decide_eq_true in Hp.
  - intros Hw.
    match goal with H : (_ || _) = true |- _ =>
      rewrite Hw in H; cbn in H; by apply negb_true_iff in H end.
Qed.

Lemma lower_go_latin1 before s :
  latin1 s → lower_go before s = lower_char <$> s.
Proof.
  intros Hs. revert before.
  induction Hs as [|c s Hc Hs IH]; intros before; [done |].
  cbn [lower_go]. rewrite fmap_cons, IH.
  destruct (latin1_lower c Hc) as (Hne & Hl & _). unfold lower_at.
  destruct (N.eqb_spec c 931); [done |]. by rewrite Hl.
Qed.

Lemma latin1_lower_char s : latin1 s → latin1 (lower_char <$> s).
Proof.
  unfold latin1. intros Hs. apply Forall_fmap. eapply Forall_impl; [done |].
  intros c Hc. by apply latin1_lower.
Qed.

End Characters.

(** ** The tokenizer *)

Section Tokenizer.

Implicit Types (c d x : N) (s t tok cur out l : list N).

(** The loop of [remove_punctuation] only appends, so its result is the
    concatenation of what each character contributes. *)
Lemma punctuation_step_app out c :
  punctuation_step out c = out ++ punctuation_step [] c.
Proof.
  unfold punctuation_step.
  repeat match goal with |- context [if ?b then _ else _] => destruct b end;
    cbn; by rewrite <- ?app_assoc, ?app_nil_r.
Qed.

Lemma join_cons {A : Type} (x : list A) (xs : list (list A)) :
  mjoin (x :: xs) = x ++ mjoin xs.
Proof. reflexivity. Qed.

Lemma foldl_punctuation_step out l :
  foldl punctuation_step out l = out ++ mjoin (punctuation_step [] <$> l).
Proof.
  revert out. induction l as [|c l IH]; intros out; cbn [foldl].
  - by rewrite app_nil_r.
  - by rewrite IH, (punctuation_step_app out c), fmap_cons, join_cons,
      <- app_assoc.
Qed.

Lemma remove_punctuation_join s :
  remove_punctuation s = mjoin (punctuation_step [] <$> s).
Proof. unfold remove_punctuation. by rewrite foldl_punctuation_step. Qed.

Lemma remove_punctuation_cons c s :
  remove_punctuation (c :: s) = punctuation_step [] c ++ remove_punctuation s.
Proof. by rewrite !remove_punctuation_join, fmap_cons, join_cons. Qed.

(** What one character contributes, by the kind of the character. *)
Lemma punctuation_step_cases c :
  punctuation_step [] c =
  if isspace c then
    if bool_decide (c ∈ [ord "010"; ord "013"; ord "009"])
    then [ord " "; c] else [c]
  else if isalnum c then [c]
  else if is_kept_symbol c then
    if bool_decide (c = ord "}") then [c; ord " "] else [c]
  else [ord " "].
Proof.
  unfold punctuation_step. case_bool_decide as Hnl.
  - by rewrite (newline_is_space c Hnl).
  - destruct (isspace c), (isalnum c), (is_kept_symbol c); try done.
Qed.

(** What one character contributes: spaces, and the character itself
    when it is whitespace, alphanumeric or a kept symbol. *)
Lemma punctuation_step_chars c x :
  x ∈ punctuation_step [] c →
  x = ord " "
  ∨ x = c ∧ (isspace c || isalnum c || is_kept_symbol c) = true.
Proof.
  rewrite punctuation_step_cases.
  destruct (isspace c), (isalnum c), (is_kept_symbol c); cbn [orb];
    repeat case_bool_decide;
    rewrite ?elem_of_cons, ?elem_of_nil; intros Hx;
    repeat destruct Hx as [Hx | Hx]; subst; auto; done.
Qed.

Lemma remove_punctuation_chars s x :
  x ∈ remove_punctuation s →
  x = ord " "
  ∨ x ∈ s ∧ (isspace x || isalnum x || is_kept_symbol x) = true.
Proof.
  rewrite remove_punctuation_join.
  intros (l & Hx & (c & -> & Hc)%list_elem_of_fmap)%list_elem_of_join.
  apply punctuation_step_chars in Hx as [-> | [-> Hk]]; [by left | by right].
Qed.

(** [split] returns non-empty runs of characters that are not
    whitespace, all taken from the text. *)
Lemma split_go_tokens s cur tok :
  (∀ c, c ∈ cur → isspace c = false) →
  tok ∈ split_go cur s →
  tok ≠ [] ∧ ∀ c, c ∈ tok → isspace c = false ∧ (c ∈ cur ∨ c ∈ s).
Proof.
  revert cur. induction s as [|d s IH]; intros cur Hcur; cbn [split_go].
  - destruct cur as [|c cur]; [by intros ?%elem_of_nil |].
    intros ->%list_elem_of_singleton. split; [done |]. intros x Hx. auto.
  - assert (Hrest : tok ∈ split_go [] s →
      tok ≠ [] ∧ ∀ c, c ∈ tok → isspace c = false ∧ (c ∈ cur ∨ c ∈ d :: s)).
    { intros [Hne Hc]%IH; [| by intros ? ?%elem_of_nil].
      split; [done |]. intros c [Hs [[]%elem_of_nil | Hin]]%Hc.
      split; [done |]. right. by right. }
    destruct (isspace d) eqn:Hd.
    + destruct cur as [|c cur]; [done |].
      intros [-> | Hin]%elem_of_cons; [| by apply Hrest].
      split; [done |]. intros x Hx. auto.
    + intros [Hne Hc]%IH.
      * split; [done |]. intros c [Hs Hin]%Hc. split; [done |].
        rewrite elem_of_app, list_elem_of_singleton in Hin.
        rewrite elem_of_cons. tauto.
      * intros c. rewrite elem_of_app, list_elem_of_singleton.
        intros [? | ->]; auto.
Qed.

Lemma split_tokens s tok :
  tok ∈ split s →
  tok ≠ [] ∧ ∀ c, c ∈ tok → isspace c = false ∧ c ∈ s.
Proof.
  intros [Hne Hc]%split_go_tokens; [| by intros ? ?%elem_of_nil].
  split; [done |]. intros c [Hs [[]%elem_of_nil | Hin]]%Hc. done.
Qed.

Lemma split_blank s :
  (∀ c, c ∈ s → isspace c = true) → split s = [].
Proof.
  unfold split. induction s as [|c s IH]; intros Hs; [done |].
  cbn [split_go]. rewrite Hs by by left.
  apply IH. intros x Hx. apply Hs. by right.
Qed.

(** Every character of a token of [clean_oracle_text] is no whitespace
    and comes, by [str.lower], from a word character that
    [remove_punctuation] kept. *)
Lemma clean_token_source t tok :
  tok ∈ clean_oracle_text t →
  tok ≠ []
  ∧ ∀ c, c ∈ tok →
         isspace c = false
         ∧ ∃ d b a,
             c ∈ lower_at b d a ∧ is_word_char d = true
             ∧ d ∈ replace (ord "010") (ord " ") (remove_parentheses t).
Proof.
  unfold clean_oracle_text. intros [Hne Hc]%split_tokens.
  split; [done |]. intros c [Hs Hin]%Hc. split; [done |].
  apply lower_go_elem in Hin as (d & b & a & Hd & Hda).
  exists d, b, a. split; [done |].
  assert (Hnot : isspace d = false).
  { destruct (isspace d) eqn:E; [| done].
    rewrite (lower_at_space _ _ _ E) in Hda.
    apply list_elem_of_singleton in Hda. congruence. }
  apply remove_punctuation_chars in Hd as [-> | [Hd Hk]]; [done |].
  split; [| done]. unfold is_word_char.
  by rewrite Hnot in Hk.
Qed.

Lemma clean_token_not_sentinel t tok :
  tok ∈ clean_oracle_text t → tok ≠ lpad ∧ tok ≠ rpad.
Proof.
  intros [_ Hc]%clean_token_source.
  assert (Hlt : ord "<" ∉ tok).
  { intros (_ & d & b & a & Hda & Hw & _)%Hc.
    apply lower_at_guarded in Hda as <-; done. }
  split; intros ->; apply Hlt; by left.
Qed.

Lemma chars_replace_latin1 s :
  latin1 s → latin1 (replace (ord "010") (ord " ") s).
Proof.
  induction 1 as [|c s Hc Hs IH]; [constructor |].
  cbn [replace]. constructor; [| done]. by case_decide.
Qed.

Lemma sub_empty_latin1 (re : regex) s (skip : nat) :
  latin1 s → latin1 (sub_empty re skip s).
Proof.
  unfold latin1. rewrite !Forall_forall.
  intros Hs x Hx. by eapply Hs, sub_empty_chars.
Qed.

Lemma remove_punctuation_latin1 s :
  latin1 s → latin1 (remove_punctuation s).
Proof.
  unfold latin1. rewrite !Forall_forall.
  intros Hs x [-> | [Hx _]]%remove_punctuation_chars; [done | by apply Hs].
Qed.

(** For a Latin-1 text every character of a token is a token character
    below 256 and its own lower case. *)
Lemma clean_token_latin1 t tok :
  latin1 t → tok ∈ clean_oracle_text t →
  ∀ c, c ∈ tok →
       token_char c = true ∧ lower_char c = c ∧ (c < 256)%N.
Proof.
  intros Ht Htok c Hc.
  destruct (clean_token_source _ _ Htok) as [_ Hsrc].
  destruct (Hsrc c Hc) as (Hs & d & b & a & Hda & Hw & Hd).
  assert (Hlat : (d < 256)%N).
  { apply (sub_empty_latin1 parentheses_re _ O), chars_replace_latin1 in Ht.
    unfold latin1 in Ht. rewrite Forall_forall in Ht. by apply Ht. }
  destruct (latin1_lower d Hlat) as (Hne & Hl & Hlt & Hidem).
  destruct (latin1_tests d Hlat) as (Hsp & Hal & Hk & _ & Hup).
  unfold lower_at in Hda. destruct (N.eqb_spec d 931); [done |].
  rewrite Hl in Hda. apply list_elem_of_singleton in Hda as ->.
  split; [| done]. unfold token_char.
  rewrite Hs, (Hup Hw), Hal, Hk. exact Hw.
Qed.


Lemma replace_elem (old new : N) s x :
  x ∈ replace old new s → x = new ∨ x ∈ s.
Proof.
  induction s as [|c s IH]; [by intros ?%elem_of_nil |].
  cbn [replace]. rewrite !elem_of_cons. intros [-> | Hx].
  - case_decide; auto.
  - destruct (IH Hx); auto.
Qed.

(** C3, amended. A text with no alphanumeric character and none of the
    kept symbols [~ { } + - /] is cleaned to the empty token list. *)
Theorem clean_oracle_text_blank (t : list N) :
  has_alnum t = false → has_kept_symbol t = false →
  clean_oracle_text t = [].
Proof.
  unfold has_alnum, has_kept_symbol. intros Ha Hk.
  assert (Hin : ∀ c, c ∈ t → isalnum c = false ∧ is_kept_symbol c = false).
  { intros c Hc%list_elem_of_In. split.
    - destruct (isalnum c) eqn:E; [| done].
      assert (existsb isalnum t = true); [| congruence].
      apply existsb_exists. eauto.
    - destruct (is_kept_symbol c) eqn:E; [| done].
      assert (existsb is_kept_symbol t = true); [| congruence].
      apply existsb_exists. eauto. }
  unfold clean_oracle_text. apply split_blank. intros c.
  intros (d & b & a & Hd & Hda)%lower_go_elem.
  assert (Hsp : isspace d = true).
  { apply remove_punctuation_chars in Hd as [-> | [Hd Hkeep]]; [done |].
    apply replace_elem in Hd as [-> | Hd]; [done |].
    apply sub_empty_chars, Hin in Hd as [Hda' Hdk].
    by rewrite Hda', Hdk, !orb_false_r in Hkeep. }
  rewrite (lower_at_space _ _ _ Hsp) in Hda.
  by apply list_elem_of_singleton in Hda as ->.
Qed.

(** What the loop appends for every other character. *)
Lemma punctuation_step_other out c :
  c ∉ [ord "010"; ord "013"; ord "009"] →
  punctuation_step out c =
  out ++ (if isspace c || isalnum c then [c]
          else if is_kept_symbol c then
                 if bool_decide (c = ord "}") then [c; ord " "] else [c]
          else [ord " "]).
Proof.
  intros Hc. unfold punctuation_step. rewrite bool_decide_false by done.
  repeat match goal with |- context [if ?b then _ else _] => destruct b end;
    by rewrite <- ?app_assoc.
Qed.

(** C9. What the loop of [remove_punctuation] appends for a tab, a
    carriage return and a line feed: a space and then the character
    itself, so the character is still in the result. *)
Theorem remove_punctuation_keeps_tab_cr_lf :
  (∀ out : list N,
      punctuation_step out (ord "009") = out ++ [ord " "; ord "009"]
      ∧ punctuation_step out (ord "013") = out ++ [ord " "; ord "013"]
      ∧ punctuation_step out (ord "010") = out ++ [ord " "; ord "010"])
  ∧ remove_punctuation [ord "a"; ord "009"; ord "b"]
    = [ord "a"; ord " "; ord "009"; ord "b"].
Proof.
  split; [| reflexivity].
  intros out. rewrite !(punctuation_step_app out). done.
Qed.

Lemma punctuation_step_length c :
  (1 ≤ length (punctuation_step [] c) ≤ 2)%nat.
Proof.
  rewrite punctuation_step_cases.
  destruct (isspace c), (isalnum c), (is_kept_symbol c);
    repeat case_bool_decide; cbn; lia.
Qed.

(** X16. [remove_punctuation] never shortens a text and at most doubles
    it: every character is replaced by one or two characters. *)
Theorem remove_punctuation_length s :
  (length s ≤ length (remove_punctuation s) ≤ 2 * length s)%nat.
Proof.
  rewrite remove_punctuation_join.
  induction s as [|c l IH]; [cbn; lia |].
  rewrite fmap_cons, join_cons, length_app. cbn [length].
  pose proof (punctuation_step_length c). lia.
Qed.

Lemma punctuation_step_word c :
  List.filter (fun x => negb (isspace x)) (punctuation_step [] c)
  = if is_word_char c then [c] else [].
Proof.
  rewrite punctuation_step_cases. unfold is_word_char.
  destruct (isspace c) eqn:Hs.
  - destruct (space_facts c Hs) as (-> & -> & _).
    case_bool_decide; cbn [List.filter orb]; by rewrite Hs.
  - destruct (isalnum c); [cbn [List.filter orb]; by rewrite Hs |].
    destruct (is_kept_symbol c); [| done].
    case_bool_decide; cbn [List.filter orb]; by rewrite Hs.
Qed.

Lemma remove_punctuation_keeps_words_aux s :
  List.filter (fun x => negb (isspace x)) (remove_punctuation s)
  = List.filter is_word_char s.
Proof.
  rewrite remove_punctuation_join.
  induction s as [|c l IH]; [done |].
  rewrite fmap_cons, join_cons, List.filter_app, punctuation_step_word, IH.
  cbn [List.filter]. by destruct (is_word_char c).
Qed.

(** X17. [remove_punctuation] keeps exactly the alphanumeric characters
    and the six symbols, in their order, and turns everything else into
    whitespace: the characters of its result that are not whitespace are
    the word characters of the text, and a character of the text that is
    no word character leaves only whitespace. *)
Theorem remove_punctuation_keeps_words s :
  List.filter (fun x => negb (isspace x)) (remove_punctuation s)
  = List.filter is_word_char s
  ∧ ∀ x, x ∈ remove_punctuation s →
         isspace x = true ∨ is_word_char x = true ∧ x ∈ s.
Proof.
  split; [apply remove_punctuation_keeps_words_aux |].
  intros x [-> | [Hin Hk]]%remove_punctuation_chars; [by left |].
  unfold is_word_char. destruct (isspace x); [by left | right].
  split; [| done]. by rewrite <- orb_assoc in Hk.
Qed.

(** What one character contributes holds a closing brace only as the
    pair of the brace and the space behind it. *)
Lemma punctuation_step_brace c :
  punctuation_step [] c = [ord "}"; ord " "]
  ∨ ord "}" ∉ punctuation_step [] c.
Proof.
  rewrite punctuation_step_cases.
  destruct (isspace c) eqn:Hs.
  - destruct (space_facts c Hs) as (_ & _ & Hb & _). right.
    case_bool_decide; rewrite !not_elem_of_cons; repeat split;
      try done; apply not_elem_of_nil.
  - destruct (isalnum c) eqn:Ha.
    { right. rewrite not_elem_of_cons. split; [| apply not_elem_of_nil].
      intros <-. done. }
    destruct (is_kept_symbol c); [| right].
    + case_bool_decide as Hb; [left; by subst | right].
      rewrite not_elem_of_cons. split; [congruence | apply not_elem_of_nil].
    + rewrite not_elem_of_cons. split; [done | apply not_elem_of_nil].
Qed.

Lemma braces_closed_app l (rest : list N) :
  ord "}" ∉ l → braces_closed rest → braces_closed (l ++ rest).
Proof.
  induction l as [|c l IH]; [done |]. cbn [app braces_closed].
  intros [Hc Hl]%not_elem_of_cons Hrest. split; [| by apply IH].
  intros ->. done.
Qed.

Lemma remove_punctuation_braces s :
  braces_closed (remove_punctuation s).
Proof.
  rewrite remove_punctuation_join.
  induction s as [|c l IH]; [done |].
  rewrite fmap_cons, join_cons.
  destruct (punctuation_step_brace c) as [-> | Hn].
  - cbn. split; [done |]. split; [done | exact IH].
  - by apply braces_closed_app.
Qed.

Lemma lower_at_brace b c a : ord "}" ∈ lower_at b c a → c = ord "}".
Proof. intros H. symmetry. by eapply lower_at_guarded. Qed.

Lemma braces_closed_lower before l :
  braces_closed l → braces_closed (lower_go before l).
Proof.
  revert before. induction l as [|c l IH]; intros before; [done |].
  cbn [braces_closed lower_go]. intros [Hc Hl].
  destruct (decide (c = ord "}")) as [-> | Hne].
  - specialize (Hc eq_refl). destruct l as [|d l]; [done |].
    change (lower_at before (ord "}") (d :: l)) with [ord "}"].
    specialize (IH (ord "}" :: before) Hl). cbn [lower_go] in IH |- *.
    rewrite (lower_at_space _ _ _ Hc) in IH |- *.
    cbn [app braces_closed] in IH |- *. split; [done | exact IH].
  - apply braces_closed_app; [| by apply IH].
    intros ?%lower_at_brace. done.
Qed.

Lemma braces_closed_middle (a : list N) d (b : list N) :
  braces_closed (a ++ ord "}" :: d :: b) → isspace d = true.
Proof.
  induction a as [|c a IH]; cbn [app braces_closed].
  - intros [H _]. by apply H.
  - intros [_ H]. by apply IH.
Qed.

(** A token of [split] is a segment of the text. *)
Lemma split_go_segment s cur tok :
  tok ∈ split_go cur s → ∃ a b : list N, cur ++ s = a ++ tok ++ b.
Proof.
  revert cur. induction s as [|c s IH]; intros cur; cbn [split_go].
  - destruct cur as [|x cur]; [by intros ?%elem_of_nil |].
    intros ->%list_elem_of_singleton. exists [], []. by rewrite app_nil_l.
  - destruct (isspace c).
    + destruct cur as [|x cur].
      * intros (a & b & Hab)%IH. exists (c :: a), b.
        cbn in Hab |- *. by rewrite Hab.
      * intros [-> | (a & b & Hab)%IH]%elem_of_cons.
        -- exists [], (c :: s). by rewrite app_nil_l.
        -- exists ((x :: cur) ++ c :: a), b.
           cbn in Hab. rewrite Hab. by rewrite <- !app_assoc.
    + intros (a & b & Hab)%IH. exists a, b. rewrite <- Hab.
      by rewrite <- app_assoc.
Qed.

Lemma clean_token_brace_last t tok (u v : list N) :
  tok ∈ clean_oracle_text t → tok = u ++ ord "}" :: v → v = [].
Proof.
  unfold clean_oracle_text. intros Hin ->.
  destruct v as [|d v]; [done |]. exfalso.
  destruct (split_tokens _ _ Hin) as [_ Hc].
  destruct (Hc d) as [Hd _].
  { rewrite elem_of_app, !elem_of_cons. auto. }
  apply split_go_segment in Hin as (a & b & Hab). cbn [app] in Hab.
  assert (Hbr : braces_closed ((a ++ u) ++ ord "}" :: d :: (v ++ b))).
  { rewrite <- !app_assoc. cbn [app]. rewrite <- !app_assoc in Hab.
    cbn [app] in Hab. rewrite <- Hab.
    apply braces_closed_lower, remove_punctuation_braces. }
  apply braces_closed_middle in Hbr. congruence.
Qed.

(** X19. In a token of [clean_oracle_text] a closing brace can only be
    the last character: the space that [remove_punctuation] puts behind
    every closing brace ends the token there. *)
Theorem clean_oracle_text_brace_last t tok (u v : list N) :
  tok ∈ clean_oracle_text t → tok = u ++ ord "}" :: v → v = [].
Proof. apply clean_token_brace_last. Qed.

End Tokenizer.

(** ** The vectorizer *)

Section Vectorizer.

Variable bag : gmap (list N) Z.

Implicit Types (w word : list N) (ws words : list (list N)) (ids : list Z).

Lemma getitems_cons word words :
  getitems bag (word :: words) =
  match bag !! word with
  | None => Raise (KeyError word)
  | Some i =>
      match getitems bag words with
      | Ok ids => Ok (i :: ids)
      | Raise e => Raise e
      end
  end.
Proof.
  cbn [getitems]. unfold getitem.
  destruct (bag !! word); [| done]. by destruct (getitems bag words).
Qed.

(** The comprehension succeeds exactly with the ids of its words. *)
Lemma getitems_ok words ids :
  getitems bag words = Ok ids
  ↔ Forall2 (fun w i => bag !! w = Some i) words ids.
Proof.
  revert ids. induction words as [|word words IH]; intros ids.
  - cbn. split; [intros [= <-]; constructor | by intros ->%Forall2_nil_inv_l].
  - rewrite getitems_cons. split.
    + destruct (bag !! word) as [i|] eqn:Hw; [| done].
      destruct (getitems bag words) as [ids'|] eqn:Hws; [| done].
      intros [= <-]. constructor; [done | by apply IH].
    + intros (i & ids' & Hw & Hws & ->)%Forall2_cons_inv_l.
      apply IH in Hws. by rewrite Hw, Hws.
Qed.

(** It fails exactly when a word is missing, with the first missing one. *)
Lemma getitems_raise words (e : exception) :
  getitems bag words = Raise e →
  ∃ w, e = KeyError w ∧ w ∈ words ∧ bag !! w = None.
Proof.
  induction words as [|word words IH]; [done |].
  rewrite getitems_cons. destruct (bag !! word) as [i|] eqn:Hw.
  - destruct (getitems bag words) as [ids'|e'] eqn:Hws; [done |].
    intros [= <-]. destruct IH as (w & ? & ? & ?); [done |].
    exists w. split; [done |]. split; [by right | done].
  - intros [= <-]. exists word. split; [done |]. split; [by left | done].
Qed.

Lemma getitems_missing words w :
  w ∈ words → bag !! w = None → ∃ e, getitems bag words = Raise e.
Proof.
  intros Hin Hw. destruct (getitems bag words) as [ids|e] eqn:Hg; [| eauto].
  apply getitems_ok in Hg.
  apply list_elem_of_lookup in Hin as [j Hj].
  destruct (Forall2_lookup_l _ _ _ _ _ Hg Hj) as (i & _ & Hi). congruence.
Qed.

Lemma getitems_present words :
  (∀ w, w ∈ words → is_Some (bag !! w)) →
  ∃ ids, Forall2 (fun w i => bag !! w = Some i) words ids.
Proof.
  induction words as [|word words IH]; intros Hall.
  - exists []. constructor.
  - destruct (Hall word) as [i Hi]; [by left |].
    destruct IH as [ids Hids]; [intros w Hw; apply Hall; by right |].
    exists (i :: ids). by constructor.
Qed.

(** C2. With the sentinels at ids 1 and 0, [vectorize] looks up the left
    pad, the tokens of [clean_oracle_text] and the right pad: when every
    token is in the dictionary the result is 1, the ids of the tokens,
    0; it raises exactly when some token is missing, and then
    [KeyError] for a missing token. *)
Theorem vectorize_ids_or_key_error (t : list N) :
  bag !! lpad = Some 1 → bag !! rpad = Some 0 →
  ((∀ w, w ∈ clean_oracle_text t → is_Some (bag !! w)) →
     ∃ ids,
       Forall2 (fun w i => bag !! w = Some i) (clean_oracle_text t) ids
       ∧ vectorize bag t = Ok ([1] ++ ids ++ [0]))
  ∧ ((∃ e, vectorize bag t = Raise e)
     ↔ ∃ w, w ∈ clean_oracle_text t ∧ bag !! w = None)
  ∧ (∀ e, vectorize bag t = Raise e →
       ∃ w, e = KeyError w ∧ w ∈ clean_oracle_text t ∧ bag !! w = None).
Proof.
  intros Hl Hr. unfold vectorize.
  assert (Hraise : ∀ e,
    getitems bag ([lpad] ++ clean_oracle_text t ++ [rpad]) = Raise e →
    ∃ w, e = KeyError w ∧ w ∈ clean_oracle_text t ∧ bag !! w = None).
  { intros e (w & -> & Hin & Hw)%getitems_raise. exists w.
    split; [done |]. split; [| done].
    rewrite elem_of_app, list_elem_of_singleton in Hin.
    rewrite elem_of_app, list_elem_of_singleton in Hin.
    destruct Hin as [-> | [? | ->]]; [congruence | done | congruence]. }
  split; [| split; [split |]].
  - intros [ids Hids]%getitems_present. exists ids. split; [done |].
    apply getitems_ok. apply Forall2_app; [by repeat constructor |].
    apply Forall2_app; [done | by repeat constructor].
  - intros [e (w & _ & ? & ?)%Hraise]. eauto.
  - intros (w & Hin & Hw). apply (getitems_missing _ w); [| done].
    rewrite !elem_of_app. auto.
  - done.
Qed.

End Vectorizer.

(** ** The vectorizer: first missing token, corpus texts, decoding *)

Section VectorizerMore.

Implicit Types (bag : gmap (list N) Z) (t tok w : list N).
Implicit Types (ws : list (list N)) (ids v : list Z).

Lemma getitems_app bag ws1 ws2 :
  getitems bag (ws1 ++ ws2) =
  match getitems bag ws1 with
  | Raise e => Raise e
  | Ok ids1 =>
      match getitems bag ws2 with
      | Raise e => Raise e
      | Ok ids2 => Ok (ids1 ++ ids2)
      end
  end.
Proof.
  induction ws1 as [|w ws1 IH].
  - cbn [app getitems]. by destruct (getitems bag ws2).
  - cbn [app]. rewrite !getitems_cons, IH.
    destruct (bag !! w); [| done].
    destruct (getitems bag ws1); [| done]. by destruct (getitems bag ws2).
Qed.

(** With both sentinels in the dictionary, [vectorize] is the lookup of
    the tokens, bracketed by the ids of the sentinels. *)
Lemma vectorize_tokens bag t (l r : Z) :
  bag !! lpad = Some l → bag !! rpad = Some r →
  vectorize bag t =
  match getitems bag (clean_oracle_text t) with
  | Ok ids => Ok ([l] ++ ids ++ [r])
  | Raise e => Raise e
  end.
Proof.
  intros Hl Hr. unfold vectorize. cbn [app].
  rewrite getitems_cons, Hl, getitems_app.
  destruct (getitems bag (clean_oracle_text t)); [| done].
  by rewrite getitems_cons, Hr.
Qed.

(** The comprehension stops at the first word that is missing. *)
Lemma getitems_raise_first bag ws (e : exception) :
  getitems bag ws = Raise e
  ↔ ∃ (pre : list (list N)) w (post : list (list N)),
      ws = pre ++ w :: post
      ∧ Forall (fun w' => is_Some (bag !! w')) pre
      ∧ bag !! w = None
      ∧ e = KeyError w.
Proof.
  induction ws as [|word ws IH].
  - split; [done |]. by intros ([|??] & ? & ? & ? & _).
  - rewrite getitems_cons. destruct (bag !! word) as [i|] eqn:Hw.
    + destruct (getitems bag ws) as [ids|e'] eqn:Hws.
      * split; [done |]. intros (pre & w & post & Heq & Hpre & Hn & ->).
        destruct pre as [|p pre]; simplify_eq/=.
        apply Forall_cons in Hpre as [_ Hpre].
        assert (@Ok (list Z) ids = Raise (KeyError w)); [| done].
        apply IH. by exists pre, w, post.
      * split.
        -- intros [= <-]. destruct (proj1 IH eq_refl)
             as (pre & w & post & -> & Hpre & Hn & ->).
           exists (word :: pre), w, post.
           split; [done |]. split; [| done]. constructor; eauto.
        -- intros (pre & w & post & Heq & Hpre & Hn & ->).
           destruct pre as [|p pre]; simplify_eq/=.
           apply Forall_cons in Hpre as [_ Hpre].
           apply IH. by exists pre, w, post.
    + split.
      * intros [= <-]. exists [], word, ws. by repeat split.
      * intros (pre & w & post & Heq & Hpre & Hn & ->).
        destruct pre as [|p pre]; simplify_eq/=; [done |].
        apply Forall_cons in Hpre as [[? ?] _]. congruence.
Qed.

(** X7. With both sentinels in the dictionary, [vectorize] raises
    [KeyError(w)] exactly when [w] is the first token of the cleaned text
    that is not in the dictionary. *)
Theorem vectorize_first_missing bag t (e : exception) :
  bag !! lpad = Some 1 → bag !! rpad = Some 0 →
  (vectorize bag t = Raise e
   ↔ ∃ (pre : list (list N)) w (post : list (list N)),
       clean_oracle_text t = pre ++ w :: post
       ∧ Forall (fun w' => is_Some (bag !! w')) pre
       ∧ bag !! w = None
       ∧ e = KeyError w).
Proof.
  intros Hl Hr. rewrite (vectorize_tokens _ _ _ _ Hl Hr).
  rewrite <- getitems_raise_first.
  destruct (getitems bag (clean_oracle_text t)); split; congruence.
Qed.

(** The ids of words that are not sentinels start at 2. *)
Lemma built_id_ge_2 (cleaned : list (list N * list (list N))) w (i : Z) :
  bag_of_words cleaned !! w = Some i → w ≠ lpad → w ≠ rpad → 2 ≤ i.
Proof.
  rewrite bag_of_words_words. intros Hw Hl Hr.
  assert (Hok : vocabulary_ok
                  (foldl scan_word scan_init (corpus_words cleaned)))
    by apply scan_ok, init_ok.
  destruct (ok_sentinels _ _ _ Hok Hw) as [H0 H1].
  apply (ok_below _ Hok) in Hw. 
  destruct (decide (i = 0)) as [->%H0 | ?]; [done |].
  destruct (decide (i = 1)) as [->%H1 | ?]; [done |]. lia.
Qed.

Lemma built_sentinels (cleaned : list (list N * list (list N))) :
  bag_of_words cleaned !! lpad = Some 1
  ∧ bag_of_words cleaned !! rpad = Some 0.
Proof.
  rewrite bag_of_words_words.
  assert (Hok : vocabulary_ok
                  (foldl scan_word scan_init (corpus_words cleaned)))
    by apply scan_ok, init_ok.
  split; apply Hok.
Qed.

(** A text whose tokens are words of the corpus is vectorized without
    error. *)
Lemma vectorize_known_tokens (cleaned : list (list N * list (list N))) t :
  (∀ w, w ∈ clean_oracle_text t → w ∈ corpus_words cleaned) →
  ∃ ids, vectorize (bag_of_words cleaned) t = Ok ([1] ++ ids ++ [0]).
Proof.
  intros Hin. destruct (built_sentinels cleaned) as [Hl Hr].
  rewrite (vectorize_tokens _ _ _ _ Hl Hr).
  destruct (getitems_present (bag_of_words cleaned) (clean_oracle_text t))
    as [ids Hids].
  { intros w Hw. rewrite bag_of_words_words. by apply scan_present, Hin. }
  apply getitems_ok in Hids. rewrite Hids. eauto.
Qed.

Lemma corpus_words_member
    (cleaned : list (list N * list (list N))) (name : list N) ws w :
  (name, ws) ∈ cleaned → w ∈ ws → w ∈ corpus_words cleaned.
Proof.
  intros Hin Hw. unfold corpus_words. apply list_elem_of_join.
  exists ws. split; [done |]. apply list_elem_of_fmap. by exists (name, ws).
Qed.

(** X8. A text whose tokens were read by the construction loop is
    vectorized without error against the dictionary the loop built. *)
Theorem vectorize_corpus_text
    (cleaned : list (list N * list (list N))) (name t : list N) :
  (name, clean_oracle_text t) ∈ cleaned →
  ∃ ids, vectorize (bag_of_words cleaned) t = Ok ([1] ++ ids ++ [0]).
Proof.
  intros Hin. apply vectorize_known_tokens.
  intros w Hw. by eapply corpus_words_member.
Qed.

(** X9. Against a dictionary built by the loop, a vectorized text is the
    id 1, one id from 2 on for each token, and the id 0: the ids of the
    sentinels occur at the two ends and nowhere else. *)
Theorem vectorize_shape (cleaned : list (list N * list (list N))) t v :
  vectorize (bag_of_words cleaned) t = Ok v →
  ∃ ids,
    v = [1] ++ ids ++ [0]
    ∧ length ids = length (clean_oracle_text t)
    ∧ Forall (fun i => 2 ≤ i) ids.
Proof.
  destruct (built_sentinels cleaned) as [Hl Hr].
  rewrite (vectorize_tokens _ _ _ _ Hl Hr).
  destruct (getitems _ (clean_oracle_text t)) as [ids|] eqn:Hg; [| done].
  intros [= <-]. exists ids. split; [done |].
  apply getitems_ok in Hg. split; [symmetry; by eapply Forall2_length |].
  apply Forall_lookup. intros j i Hi.
  destruct (Forall2_lookup_r _ _ _ _ _ Hg Hi) as (w & Hw & Hwi).
  apply list_elem_of_lookup_2, clean_token_not_sentinel in Hw as [? ?].
  by eapply built_id_ge_2.
Qed.

(** X10. Against a dictionary built by the loop, the ids determine the
    tokens: two texts with the same vector have the same cleaned tokens. *)
Theorem vectorize_injective
    (cleaned : list (list N * list (list N))) (t1 t2 : list N) v :
  vectorize (bag_of_words cleaned) t1 = Ok v →
  vectorize (bag_of_words cleaned) t2 = Ok v →
  clean_oracle_text t1 = clean_oracle_text t2.
Proof.
  destruct (built_sentinels cleaned) as [Hl Hr].
  rewrite !(vectorize_tokens _ _ _ _ Hl Hr).
  destruct (getitems _ (clean_oracle_text t1)) as [ids1|] eqn:H1; [| done].
  destruct (getitems _ (clean_oracle_text t2)) as [ids2|] eqn:H2; [| done].
  intros [= <-] [= Heq]. apply app_inv_tail in Heq as ->.
  apply getitems_ok in H1, H2.
  assert (Huniq : ∀ (w1 w2 : list N) (i : Z),
    bag_of_words cleaned !! w1 = Some i →
    bag_of_words cleaned !! w2 = Some i → w1 = w2).
  { rewrite bag_of_words_words. apply ok_unique, scan_ok, init_ok. }
  revert H1 H2. generalize (clean_oracle_text t1) (clean_oracle_text t2).
  induction ids1 as [|i ids IH]; intros l1 l2 H1 H2.
  - apply Forall2_nil_inv_r in H1, H2. congruence.
  - apply Forall2_cons_inv_r in H1 as (w1 & l1' & Hw1 & H1 & ->).
    apply Forall2_cons_inv_r in H2 as (w2 & l2' & Hw2 & H2 & ->).
    f_equal; [by eapply Huniq | by apply IH].
Qed.

(** X11. The last line of the cell: with both sentinels in the dictionary
    and a width from 1 to [sys.maxsize], the windows over a vectorized
    text start with the id of the left pad and end with the id of the
    right pad. *)
Theorem windows_of_vectorize bag t v (n : Z) :
  bag !! lpad = Some 1 → bag !! rpad = Some 0 → 1 ≤ n ≤ sys_maxsize →
  vectorize bag t = Ok v →
  ∃ (r : list (list Z)) (first final : list Z),
    windows v n = Ok r
    ∧ head r = Some first ∧ head first = Some 1
    ∧ last r = Some final ∧ last final = Some 0.
Proof.
  intros Hl Hr Hn. rewrite (vectorize_tokens _ _ _ _ Hl Hr).
  destruct (getitems bag (clean_oracle_text t)) as [ids|]; [| done].
  intros [= <-]. set (v := [1] ++ ids ++ [0]).
  assert (Hlen : (2 ≤ length v)%nat).
  { unfold v. rewrite !length_app. cbn. lia. }
  assert (Hlast : v !! (length v - 1)%nat = Some 0).
  { replace (length v - 1)%nat with (pred (length v)) by lia.
    rewrite <- last_lookup. unfold v.
    by rewrite (assoc_L (++)), last_snoc. }
  destruct (Z.to_nat n) as [|k] eqn:Hk; [lia |].
  exists (slices (S k) v), (take (S k) v),
    (take (S k) (drop (length v - S k) v)).
  split; [rewrite windows_slices by done; by rewrite Hk |].
  split; [done |]. split; [done |]. split.
  - rewrite last_lookup, length_slices. cbn [pred].
    rewrite lookup_slices. by rewrite decide_True by lia.
  - rewrite last_lookup, length_take, length_drop.
    rewrite lookup_take_lt by lia. rewrite lookup_drop.
    rewrite <- Hlast. f_equal. lia.
Qed.

End VectorizerMore.

(** ** Parenthesised spans: what is removed and what is left *)

Section ParenthesesMore.

Implicit Types (c : N) (s t u v pre mid post : list N).

(** X12. [remove_parentheses] only deletes: its result is a subsequence
    of the text, so no character is added, changed or moved. *)
Theorem remove_parentheses_sublist t :
  remove_parentheses t `sublist_of` t.
Proof. apply sub_empty_sublist. Qed.

(** X13. In the result of [remove_parentheses] no opening parenthesis has
    a closing one anywhere behind it. *)
Theorem remove_parentheses_no_span t u v :
  remove_parentheses t = u ++ ord "(" :: v → ord ")" ∉ v.
Proof.
  intros Heq.
  pose proof (sub_empty_settled t O) as Hs.
  fold (remove_parentheses t) in Hs. rewrite Heq in Hs.
  apply settled_suffix in Hs as [Hm _].
  by apply parentheses_none in Hm as [? | ?].
Qed.

(** X14. A text without an opening parenthesis, or without a closing one,
    is returned as it is. *)
Theorem remove_parentheses_without t :
  ord "(" ∉ t ∨ ord ")" ∉ t → remove_parentheses t = t.
Proof. apply remove_parentheses_id. Qed.

(** X15. A closing parenthesis closes the first opening one before it:
    when [pre] has no opening and [mid] no closing parenthesis, the span
    from the opening parenthesis behind [pre] to the closing one behind
    [mid] is removed, opening parentheses inside [mid] included, and the
    rest of the text is treated the same way. *)
Theorem remove_parentheses_first_span pre mid post :
  ord "(" ∉ pre → ord ")" ∉ mid →
  remove_parentheses (pre ++ ord "(" :: mid ++ ord ")" :: post)
  = pre ++ remove_parentheses post.
Proof.
  intros Hpre Hmid. unfold remove_parentheses.
  rewrite sub_empty_keep by done. f_equal.
  cbn [sub_empty].
  assert (Hm : match_here parentheses_re (ord "(" :: mid ++ ord ")" :: post)
               = Some (S (S (length mid)))).
  { unfold parentheses_re. rewrite match_here_one. cbn [accepts].
    rewrite bool_decide_true by done. fold closing.
    by rewrite closing_some. }
  rewrite Hm.
  replace (S (length mid)) with (length (mid ++ [ord ")"]))
    by (rewrite length_app; cbn; lia).
  replace (mid ++ ord ")" :: post) with ((mid ++ [ord ")"]) ++ post)
    by by rewrite <- app_assoc.
  apply sub_empty_skip.
Qed.

End ParenthesesMore.

(** ** The corpus: card names, and the dictionary built from the cards *)

Section Corpus.

Implicit Types (c : N) (s t u v p old name text w : list N).
Implicit Types (data : list card).

Lemma strip_prefix_app old v : strip_prefix old (old ++ v) = Some v.
Proof.
  induction old as [|a old IH]; [by destruct v |].
  cbn [app strip_prefix]. by rewrite decide_True.
Qed.

Lemma strip_prefix_cons_ne a old c s :
  a ≠ c → strip_prefix (a :: old) (c :: s) = None.
Proof. intros Hne. cbn [strip_prefix]. by rewrite decide_False. Qed.

Lemma nowhere_no_occurrence old s u v :
  nowhere old s → s ≠ u ++ old ++ v.
Proof.
  revert s. induction u as [|c u IH]; intros s Hs ->.
  - cbn [app] in Hs.
    destruct (old ++ v) eqn:E; destruct Hs as [Hs _];
      rewrite <- E, strip_prefix_app in Hs; done.
  - destruct Hs as [_ Hs]. by eapply IH.
Qed.

(** A prefix without the placeholder that the replaced text starts with
    is a prefix of the text. *)
Lemma str_replace_go_prefix a old s p :
  ord "~" ∉ p →
  is_Some (strip_prefix p (str_replace_go (a :: old) (str "~") O s)) →
  is_Some (strip_prefix p s).
Proof.
  revert p. induction s as [|c s IH]; intros p Hp; [done |].
  destruct p as [|b p]; [by eauto |].
  apply not_elem_of_cons in Hp as [Hb Hp].
  cbn [str_replace_go].
  destruct (strip_prefix (a :: old) (c :: s)).
  - cbn [str app]. rewrite strip_prefix_cons_ne by congruence.
    by intros [? ?].
  - cbn [strip_prefix]. case_decide; [| by intros [? ?]]. by apply IH.
Qed.

Lemma str_replace_go_nowhere a old s (skip : nat) :
  ord "~" ∉ a :: old →
  nowhere (a :: old) (str_replace_go (a :: old) (str "~") skip s).
Proof.
  intros Hold. revert skip. induction s as [|c s IH]; intros skip; [done |].
  cbn [str_replace_go]. destruct skip as [|k]; [| apply IH].
  destruct (strip_prefix (a :: old) (c :: s)) eqn:Hm.
  - cbn [str app]. split; [| apply IH].
    apply strip_prefix_cons_ne.
    apply not_elem_of_cons in Hold as [? _]. congruence.
  - split; [| apply IH].
    destruct (strip_prefix (a :: old)
                (c :: str_replace_go (a :: old) (str "~") O s)) eqn:E;
      [| done].
    assert (is_Some (strip_prefix (a :: old) (c :: s))) as [? ?];
      [| congruence].
    cbn [strip_prefix] in E |- *. case_decide; [| done].
    apply (str_replace_go_prefix a old); [| by eauto].
    by apply not_elem_of_cons in Hold as [_ ?].
Qed.

(** X21. Once a card name that is not empty and holds no [~] has been
    replaced by the placeholder, the name occurs nowhere in the text. *)
Theorem str_replace_name_gone name text u v :
  name ≠ [] → ord "~" ∉ name →
  str_replace name (str "~") text ≠ u ++ name ++ v.
Proof.
  intros Hne Hn. apply nowhere_no_occurrence.
  destruct name as [|a old]; [done |]. by apply str_replace_go_nowhere.
Qed.

(** The replacement writes characters of the text and of [new] only. *)
Lemma str_replace_go_elem old new (skip : nat) s x :
  x ∈ str_replace_go old new skip s → x ∈ new ∨ x ∈ s.
Proof.
  revert skip. induction s as [|c s IH]; intros skip;
    [by intros ?%elem_of_nil |].
  cbn [str_replace_go]. destruct skip as [|k].
  - destruct (strip_prefix old (c :: s)).
    + rewrite elem_of_app. intros [? | [? | ?]%IH]; auto.
      right. by right.
    + rewrite !elem_of_cons. intros [-> | [? | ?]%IH]; auto.
  - intros [? | ?]%IH; auto. right. by right.
Qed.

Lemma interleave_elem new s x : x ∈ interleave new s → x ∈ new ∨ x ∈ s.
Proof.
  induction s as [|c s IH]; [by left |].
  cbn [interleave]. rewrite elem_of_app, !elem_of_cons.
  intros [? | [-> | [? | ?]%IH]]; auto.
Qed.

Lemma str_replace_elem old new s x :
  x ∈ str_replace old new s → x ∈ new ∨ x ∈ s.
Proof.
  destruct old; [apply interleave_elem | apply str_replace_go_elem].
Qed.

(** The card-name replacement and the cleaning keep the cards that have
    a text, with their names. *)
Lemma cleaned_member data name text :
  (name, Some text) ∈ data →
  (name, clean_oracle_text (str_replace name (str "~") text)) ∈ cleaned data.
Proof.
  intros Hin. unfold cleaned. apply list_elem_of_fmap.
  exists (name, str_replace name (str "~") text). split; [done |].
  unfold no_card_names. apply list_elem_of_omap.
  by exists (name, Some text).
Qed.

Lemma cleaned_words data w :
  w ∈ corpus_words (cleaned data) →
  ∃ name text,
    (name, Some text) ∈ data
    ∧ w ∈ clean_oracle_text (str_replace name (str "~") text).
Proof.
  unfold corpus_words. intros (ws & Hw & Hws)%list_elem_of_join.
  apply list_elem_of_fmap in Hws as ([name ws'] & -> & Hin).
  unfold cleaned in Hin.
  apply list_elem_of_fmap in Hin as ([name' t] & [= -> ->] & Hin).
  unfold no_card_names in Hin.
  apply list_elem_of_omap in Hin as ([n [text|]] & Hin & Heq); [| done].
  cbn in Heq. injection Heq as -> <-. eauto.
Qed.

(** X22. Every card with an oracle text can be vectorized against the
    dictionary built from the cards: its text, with the name replaced,
    raises no [KeyError]. *)
Theorem vectorize_card data name text :
  (name, Some text) ∈ data →
  ∃ ids,
    vectorize (bag_of_words (cleaned data))
      (str_replace name (str "~") text)
    = Ok ([1] ++ ids ++ [0]).
Proof.
  intros Hin%cleaned_member. apply vectorize_known_tokens.
  intros w Hw. by eapply corpus_words_member.
Qed.

(** X23. Every entry of the dictionary built from the cards is a
    sentinel with its fixed id, or a token with an id from 2 on that is
    not empty and holds no whitespace; when the texts of the cards are
    Latin-1, the token is made of token characters only. *)
Theorem bag_of_cards_entries data w (i : Z) :
  bag_of_words (cleaned data) !! w = Some i →
  w = rpad ∧ i = 0
  ∨ w = lpad ∧ i = 1
  ∨ 2 ≤ i ∧ w ≠ []
    ∧ (∀ c, c ∈ w → isspace c = false)
    ∧ ((∀ name text, (name, Some text) ∈ data → latin1 text) →
       ∀ c, c ∈ w → token_char c = true).
Proof.
  intros Hw. destruct (built_sentinels (cleaned data)) as [Hl Hr].
  destruct (decide (w = rpad)) as [-> | Hnr]; [left; split; congruence |].
  destruct (decide (w = lpad)) as [-> | Hnl];
    [right; left; split; congruence |].
  right. right. split; [by eapply built_id_ge_2 |].
  destruct (proj1 (bag_of_words_lookup (cleaned data) w)) as [? | [? | Hin]];
    [by eauto | done | done |].
  apply cleaned_words in Hin as (name & text & Hcard & Htok).
  destruct (clean_token_source _ _ Htok) as [Hne Hsrc].
  split; [done |]. split; [by intros c [? _]%Hsrc |].
  intros Hlat c Hc.
  eapply (clean_token_latin1 _ w); [| done | done].
  unfold latin1. apply Forall_forall.
  intros x [Hx | Hx]%str_replace_elem.
  - by apply list_elem_of_singleton in Hx as ->.
  - specialize (Hlat _ _ Hcard). unfold latin1 in Hlat.
    rewrite Forall_forall in Hlat. by apply Hlat.
Qed.

(** X24. The dictionary built from the cards has two entries more than
    the cards have distinct tokens. *)
Theorem bag_of_cards_size data :
  size (bag_of_words (cleaned data))
  = (2 + size (list_to_set (corpus_words (cleaned data)) : gset (list N)))%nat.
Proof.
  rewrite <- size_dom.
  assert (Hdom : dom (bag_of_words (cleaned data))
                 = {[ rpad ]} ∪ ({[ lpad ]}
                   ∪ list_to_set (corpus_words (cleaned data)))).
  { apply set_eq. intros w.
    rewrite elem_of_dom, bag_of_words_lookup, !elem_of_union,
      !elem_of_singleton, elem_of_list_to_set. done. }
  rewrite Hdom.
  assert (Hfree : ∀ w, w ∈ corpus_words (cleaned data) →
                       w ≠ lpad ∧ w ≠ rpad).
  { intros w (name & text & _ & Ht)%cleaned_words.
    by eapply clean_token_not_sentinel. }
  rewrite size_union, size_singleton.
  - rewrite size_union, size_singleton; [done |].
    intros w ->%elem_of_singleton Hin%elem_of_list_to_set.
    by destruct (Hfree _ Hin).
  - intros w ->%elem_of_singleton [Hin%elem_of_singleton | Hin%elem_of_list_to_set]%elem_of_union;
      [done |]. by destruct (Hfree _ Hin).
Qed.

(** The one-character [replace] of [clean_oracle_text] is [str.replace]. *)
Lemma replace_str_replace (old new : N) s :
  replace old new s = str_replace [old] [new] s.
Proof.
  unfold str_replace. induction s as [|c s IH]; [done |].
  cbn [replace str_replace_go strip_prefix length pred app].
  rewrite IH. destruct (decide (old = c)) as [-> | Hne].
  - by rewrite decide_True.
  - by rewrite decide_False by congruence.
Qed.

End Corpus.

(** ** The tokenizer on Latin-1 texts

    On a text of code points below 256 [str.lower] maps every character
    on its own and to a code point below 256, so that the lower-case
    step commutes with the other steps of [clean_oracle_text].  Outside
    Latin-1 it does not: U+0130 becomes [i] and the combining dot U+0307,
    which [remove_punctuation] would have turned into a space. *)

Section TokenizerLatin1.

Implicit Types (c d x : N) (s t w cur pad u v l : list N).
Implicit Types (ws : list (list N)).

(** Membership in a list that is written out. *)
Ltac pick := rewrite !elem_of_cons; repeat first [by left | right].

Lemma lower_latin1 s : latin1 s → lower s = lower_char <$> s.
Proof. apply lower_go_latin1. Qed.

Lemma latin1_filter (P : N → bool) s : latin1 s → latin1 (List.filter P s).
Proof.
  induction 1 as [|c s Hc Hs IH]; [constructor |].
  cbn [List.filter]. destruct (P c); [by constructor | done].
Qed.

Lemma latin1_app s t : latin1 s → latin1 t → latin1 (s ++ t).
Proof. apply Forall_app_2. Qed.

Lemma latin1_no_newlines t :
  latin1 t →
  latin1 (remove_punctuation
            (replace (ord "010") (ord " ") (remove_parentheses t))).
Proof.
  intros Ht.
  by apply remove_punctuation_latin1, chars_replace_latin1, sub_empty_latin1.
Qed.

Lemma clean_oracle_text_latin1 t :
  latin1 t →
  clean_oracle_text t
  = split (lower_char <$> remove_punctuation
             (replace (ord "010") (ord " ") (remove_parentheses t))).
Proof.
  intros Ht. unfold clean_oracle_text.
  by rewrite lower_latin1 by by apply latin1_no_newlines.
Qed.

(** [split] drops the whitespace and nothing else. *)
Lemma split_go_concat s cur :
  mjoin (split_go cur s)
  = cur ++ List.filter (fun x => negb (isspace x)) s.
Proof.
  revert cur. induction s as [|c s IH]; intros cur; cbn [split_go].
  - destruct cur; cbn; by rewrite ?app_nil_r.
  - cbn [List.filter]. destruct (isspace c) eqn:Hc; cbn [negb].
    + destruct cur as [|a cur]; [apply IH |].
      by rewrite join_cons, IH.
    + by rewrite IH, <- app_assoc.
Qed.

Lemma filter_lower_char l :
  latin1 l →
  List.filter (fun x => negb (isspace x)) (lower_char <$> l)
  = lower_char <$> List.filter (fun x => negb (isspace x)) l.
Proof.
  induction 1 as [|c l Hc Hl IH]; [done |].
  rewrite fmap_cons. cbn [List.filter].
  destruct (latin1_tests c Hc) as (-> & _). rewrite IH.
  by destruct (isspace c).
Qed.

Lemma filter_word_replace s :
  List.filter is_word_char (replace (ord "010") (ord " ") s)
  = List.filter is_word_char s.
Proof.
  induction s as [|c s IH]; [done |].
  cbn [replace List.filter]. rewrite IH.
  case_decide as Hc; [by subst c |]. done.
Qed.

(** X18. For a text of code points below 256, the tokens of
    [clean_oracle_text], written one after the other, are the word
    characters of the text outside the removed spans, in lower case and
    in their order: cleaning keeps every alphanumeric character and kept
    symbol and adds none. *)
Theorem clean_oracle_text_concat t :
  latin1 t →
  mjoin (clean_oracle_text t)
  = lower (List.filter is_word_char (remove_parentheses t)).
Proof.
  intros Ht. rewrite clean_oracle_text_latin1 by done.
  unfold split. rewrite split_go_concat, app_nil_l.
  rewrite filter_lower_char by by apply latin1_no_newlines.
  rewrite remove_punctuation_keeps_words_aux, filter_word_replace.
  rewrite lower_latin1; [done |].
  by apply latin1_filter, sub_empty_latin1.
Qed.

(** Lower case changes none of the tests the steps make. *)
Lemma lower_char_test c p :
  (c < 256)%N →
  p ∈ [ord "("; ord ")"; ord "}"; ord " "; ord "010"; ord "013"; ord "009"] →
  bool_decide (lower_char c = p) = bool_decide (c = p).
Proof. intros Hc Hp. by apply (latin1_tests c Hc). Qed.

Lemma closing_lower s :
  latin1 s → match_here closing (lower_char <$> s) = match_here closing s.
Proof.
  unfold closing. induction 1 as [|c s Hc Hs IH]; [done |].
  rewrite fmap_cons, !match_here_star, !match_here_one. cbn [accepts].
  rewrite (lower_char_test c (ord ")")), IH; [done | done |].
  pick.
Qed.

Lemma parentheses_lower s :
  latin1 s →
  match_here parentheses_re (lower_char <$> s) = match_here parentheses_re s.
Proof.
  destruct 1 as [|c s Hc Hs]; [done |]. unfold parentheses_re.
  rewrite fmap_cons, !match_here_one. cbn [accepts]. fold closing.
  rewrite (lower_char_test c (ord "(")), closing_lower; [done | done | done |].
  pick.
Qed.

Lemma sub_empty_lower s (skip : nat) :
  latin1 s →
  sub_empty parentheses_re skip (lower_char <$> s)
  = lower_char <$> sub_empty parentheses_re skip s.
Proof.
  intros Hs. revert skip.
  induction Hs as [|c s Hc Hs IH]; intros skip; [done |].
  destruct skip as [|k]; [| rewrite fmap_cons; cbn [sub_empty]; apply IH].
  assert (Hm := parentheses_lower (c :: s) ltac:(by constructor)).
  rewrite fmap_cons in *. cbn [sub_empty]. rewrite Hm.
  destruct (match_here parentheses_re (c :: s)) as [[|m]|];
    by rewrite ?fmap_cons, IH.
Qed.

Lemma replace_lower s :
  latin1 s →
  replace (ord "010") (ord " ") (lower_char <$> s)
  = lower_char <$> replace (ord "010") (ord " ") s.
Proof.
  induction 1 as [|c s Hc Hs IH]; [done |].
  rewrite fmap_cons. cbn [replace]. rewrite fmap_cons, IH. f_equal.
  assert (Ht : bool_decide (lower_char c = ord "010")
               = bool_decide (c = ord "010")).
  { apply lower_char_test; [done |]. pick. }
  case_decide as H1; case_decide as H2; done.
Qed.

Lemma punctuation_step_lower c :
  (c < 256)%N →
  punctuation_step [] (lower_char c) = lower_char <$> punctuation_step [] c.
Proof.
  intros Hc. apply (proj1 (bool_decide_eq_true _)).
  apply (latin1_forall
    (fun c => bool_decide (punctuation_step [] (lower_char c)
                           = lower_char <$> punctuation_step [] c)) c);
    [vm_compute; reflexivity | done].
Qed.

Lemma remove_punctuation_lower s :
  latin1 s →
  remove_punctuation (lower_char <$> s)
  = lower_char <$> remove_punctuation s.
Proof.
  induction 1 as [|c s Hc Hs IH]; [done |].
  by rewrite fmap_cons, !remove_punctuation_cons, fmap_app,
    punctuation_step_lower, IH.
Qed.

Lemma lower_lower s :
  latin1 s → lower_char <$> (lower_char <$> s) = lower_char <$> s.
Proof.
  induction 1 as [|c s Hc Hs IH]; [done |].
  rewrite !fmap_cons, IH. f_equal. by apply latin1_lower.
Qed.

(** X20. On texts of code points below 256 [clean_oracle_text] does not
    see case: a text and its lower-case form give the same tokens. *)
Theorem clean_oracle_text_lower t :
  latin1 t → clean_oracle_text (lower t) = clean_oracle_text t.
Proof.
  intros Ht. rewrite (lower_latin1 t Ht).
  rewrite !clean_oracle_text_latin1 by (done || by apply latin1_lower_char).
  unfold remove_parentheses.
  rewrite sub_empty_lower by done.
  rewrite replace_lower by by apply sub_empty_latin1.
  rewrite remove_punctuation_lower
    by by apply chars_replace_latin1, sub_empty_latin1.
  by rewrite lower_lower by by apply (latin1_no_newlines t).
Qed.

Lemma remove_punctuation_app s t :
  remove_punctuation (s ++ t) = remove_punctuation s ++ remove_punctuation t.
Proof. by rewrite !remove_punctuation_join, fmap_app, join_app. Qed.

(** What [remove_punctuation] makes of a token character. *)
Lemma punctuation_step_token c :
  token_char c = true →
  punctuation_step [] c
  = if bool_decide (c = ord "}") then [ord "}"; ord " "] else [c].
Proof.
  unfold token_char. intros [[Hs _]%andb_true_iff Hk]%andb_true_iff.
  apply negb_true_iff in Hs. rewrite punctuation_step_cases, Hs.
  destruct (isalnum c) eqn:Ha.
  - case_bool_decide as Hb; [by subst c |]. done.
  - cbn [orb] in Hk. rewrite Hk. case_bool_decide; by subst.
Qed.

(** Cleaning changes a token only by whitespace behind it. *)
Lemma token_image w :
  (∀ c, c ∈ w → token_char c = true ∧ lower_char c = c) →
  (∀ u v, w = u ++ ord "}" :: v → v = []) →
  ∃ pad, lower_char <$> remove_punctuation w = w ++ pad
         ∧ ∀ c, c ∈ pad → isspace c = true.
Proof.
  induction w as [|c w IH]; intros Hc Hb.
  { exists []. split; [done |]. by intros ? ?%elem_of_nil. }
  destruct (Hc c) as [Htok Hlow]; [by left |].
  rewrite remove_punctuation_cons, (punctuation_step_token _ Htok), fmap_app.
  case_bool_decide as Hbrace.
  - subst c. rewrite (Hb [] w eq_refl).
    exists [ord " "]. split; [done |].
    intros c ->%list_elem_of_singleton. done.
  - destruct IH as (pad & Hpad & Hsp).
    + intros d Hd. apply Hc. by right.
    + intros u v ->. by apply (Hb (c :: u) v).
    + exists pad. split; [| done].
      rewrite Hpad. cbn [fmap list_fmap app]. by rewrite Hlow.
Qed.

Lemma split_go_word w cur s :
  (∀ c, c ∈ w → isspace c = false) →
  split_go cur (w ++ s) = split_go (cur ++ w) s.
Proof.
  revert cur. induction w as [|c w IH]; intros cur Hw.
  - by rewrite app_nil_r.
  - cbn [app split_go]. rewrite (Hw c) by by left.
    rewrite IH by (intros d Hd; apply Hw; by right).
    by rewrite <- app_assoc.
Qed.

Lemma split_go_blank pad s :
  (∀ c, c ∈ pad → isspace c = true) →
  split_go [] (pad ++ s) = split_go [] s.
Proof.
  induction pad as [|c pad IH]; intros Hp; [done |].
  cbn [app split_go]. rewrite (Hp c) by by left.
  apply IH. intros d Hd. apply Hp. by right.
Qed.

(** A word, some whitespace, and the rest. *)
Lemma split_go_token a w pad c s :
  (∀ d, d ∈ a :: w → isspace d = false) →
  (∀ d, d ∈ pad → isspace d = true) → isspace c = true →
  split_go [] ((a :: w) ++ pad ++ c :: s) = (a :: w) :: split_go [] s.
Proof.
  intros Hw Hp Hc. rewrite split_go_word by done. rewrite app_nil_l.
  destruct pad as [|d pad].
  - cbn [app split_go]. by rewrite Hc.
  - cbn [app split_go]. rewrite (Hp d) by by left. f_equal.
    rewrite split_go_blank by (intros x Hx; apply Hp; by right).
    cbn [split_go]. by rewrite Hc.
Qed.

Lemma split_go_last a w pad :
  (∀ d, d ∈ a :: w → isspace d = false) →
  (∀ d, d ∈ pad → isspace d = true) →
  split_go [] ((a :: w) ++ pad) = [a :: w].
Proof.
  intros Hw Hp. rewrite <- (app_nil_r pad), split_go_word by done.
  rewrite app_nil_l, app_nil_r. destruct pad as [|d pad]; [done |].
  cbn [split_go]. rewrite (Hp d) by by left. f_equal.
  apply (split_blank pad). intros x Hx. apply Hp. by right.
Qed.

Lemma token_char_not_space c : token_char c = true → isspace c = false.
Proof.
  unfold token_char. intros [[H _]%andb_true_iff _]%andb_true_iff.
  by apply negb_true_iff.
Qed.

(** Lists of tokens are what [split] makes of their cleaned join. *)
Lemma split_join_space ws :
  Forall (fun w =>
            w ≠ []
            ∧ (∀ c, c ∈ w → token_char c = true ∧ lower_char c = c)
            ∧ ∀ u v, w = u ++ ord "}" :: v → v = []) ws →
  split (lower_char <$> remove_punctuation (join_space ws)) = ws.
Proof.
  unfold split. induction 1 as [|w ws (Hne & Hc & Hb) Hws IH]; [done |].
  destruct (token_image w Hc Hb) as (pad & Hpad & Hsp).
  assert (Hw : ∀ d, d ∈ w → isspace d = false).
  { intros d [? _]%Hc. by apply token_char_not_space. }
  destruct w as [|a w]; [done |]. cbn [join_space].
  destruct ws as [|w2 ws].
  - rewrite Hpad. by apply split_go_last.
  - rewrite remove_punctuation_app, fmap_app, Hpad.
    rewrite remove_punctuation_cons, fmap_app, <- app_assoc.
    change (lower_char <$> punctuation_step [] (ord " ")) with [ord " "].
    change ([ord " "] ++ ?x) with (ord " " :: x).
    rewrite split_go_token by done. by rewrite IH.
Qed.

Lemma join_space_chars ws c :
  c ∈ join_space ws → c = ord " " ∨ ∃ w, w ∈ ws ∧ c ∈ w.
Proof.
  induction ws as [|w ws IH]; [by intros ?%elem_of_nil |].
  cbn [join_space]. destruct ws as [|w2 ws].
  - intros Hc. right. exists w. split; [by left | done].
  - rewrite elem_of_app, elem_of_cons.
    intros [Hc | [-> | Hc]]; [| by left |].
    + right. exists w. split; [by left | done].
    + destruct (IH Hc) as [-> | (w' & Hw' & Hc')]; [by left |].
      right. exists w'. split; [by right | done].
Qed.

Lemma replace_without (old new : N) s :
  old ∉ s → replace old new s = s.
Proof.
  induction s as [|c s IH]; [done |]. cbn [replace].
  intros [Hc Hs]%not_elem_of_cons. rewrite IH by done.
  by rewrite decide_False by congruence.
Qed.

(** X25. On texts of code points below 256 cleaning is stable: the
    tokens of a text, joined by single spaces and cleaned again, are the
    same tokens. *)
Theorem clean_oracle_text_stable t :
  latin1 t →
  clean_oracle_text (join_space (clean_oracle_text t)) = clean_oracle_text t.
Proof.
  intros Ht. set (ws := clean_oracle_text t).
  assert (Hgood : Forall (fun w =>
            w ≠ []
            ∧ (∀ c, c ∈ w → token_char c = true ∧ lower_char c = c)
            ∧ ∀ u v, w = u ++ ord "}" :: v → v = []) ws).
  { apply Forall_forall. intros w Hw.
    destruct (clean_token_source _ _ Hw) as [Hne _].
    split; [done |]. split.
    - intros c Hc. by destruct (clean_token_latin1 t w Ht Hw c Hc) as (? & ? & _).
    - intros u v. by apply (clean_token_brace_last t). }
  assert (Hchars : ∀ c, c ∈ join_space ws →
                        c = ord " " ∨ token_char c = true ∧ (c < 256)%N).
  { intros c [-> | (w & Hw & Hc)]%join_space_chars; [by left | right].
    by destruct (clean_token_latin1 t w Ht Hw c Hc) as (? & _ & ?). }
  assert (Hlat : latin1 (join_space ws)).
  { apply Forall_forall. intros c [-> | [_ ?]]%Hchars; done. }
  rewrite (clean_oracle_text_latin1 (join_space ws)) by done.
  rewrite (remove_parentheses_id (join_space ws)).
  - rewrite replace_without; [by apply split_join_space |].
    intros [? | [? _]]%Hchars; done.
  - left. intros [? | [? _]]%Hchars; done.
Qed.

End TokenizerLatin1.

(** * Instances *)

(** A text is Latin-1 when the test says so. *)
Lemma latin1_check (s : list N) :
  forallb (fun c => (c <? 256)%N) s = true → latin1 s.
Proof.
  rewrite forallb_forall. intros H. apply Forall_forall.
  intros c Hc%list_elem_of_In. by apply N.ltb_lt, H.
Qed.

(** ** The examples of the specification *)

Example clean_oracle_text_example :
  clean_oracle_text (str "Destroy target creature.")
  = [str "destroy"; str "target"; str "creature"].
Proof. vm_compute. reflexivity. Qed.

Example example_bag_built :
  bag_of_words
    [(str "Murder", clean_oracle_text (str "Destroy target creature."))]
  = example_bag.
Proof. apply map_eq. intros w. vm_compute. reflexivity. Qed.

(** ** [str.lower] outside Latin-1 *)

(** The capital sigma at the end of a word becomes the final sigma, and
    the one inside a word the other one. *)
Example lower_final_sigma :
  lower [927; 916; 927; 931]%N = [959; 948; 959; 962]%N
  ∧ lower [ord "A"; 931%N; ord "B"] = [ord "a"; 963%N; ord "b"]
  ∧ lower [ord "A"; ord "."; 931%N; ord "."]
    = [ord "a"; ord "."; 962%N; ord "."]
  ∧ lower [931%N] = [963%N].
Proof. repeat split; vm_compute; reflexivity. Qed.

(** U+0130 is the one character with a lower-case form of two
    characters. *)
Example lower_dotted_capital_i : lower [304%N] = [ord "i"; 775%N].
Proof. vm_compute. reflexivity. Qed.

(** ** Sliding windows *)

Lemma windows_count_width_last_witness :
  Z.of_nat (length [1; 162; 26; 19; 0]) ≤ sys_maxsize
  ∧ 1 ≤ 3 ≤ Z.of_nat (length [1; 162; 26; 19; 0])
  ∧ windows [1; 162; 26; 19; 0] 3
    = Ok [[1; 162; 26]; [162; 26; 19]; [26; 19; 0]]
  ∧ ∃ r : list (list Z),
      windows [1; 162; 26; 19; 0] 3 = Ok r
      ∧ Z.of_nat (length r) = Z.of_nat (length [1; 162; 26; 19; 0]) - 3 + 1
      ∧ Forall (fun w => Z.of_nat (length w) = 3) r
      ∧ last <$> r = Some <$> drop (Z.to_nat (3 - 1)) [1; 162; 26; 19; 0].
Proof.
  assert (H1 : Z.of_nat (length [1; 162; 26; 19; 0]) ≤ sys_maxsize)
    by (unfold sys_maxsize; cbn; lia).
  assert (H2 : 1 ≤ 3 ≤ Z.of_nat (length [1; 162; 26; 19; 0]))
    by (cbn; lia).
  split; [exact H1 |]. split; [exact H2 |]. split; [reflexivity |].
  exact (windows_count_width_last _ _ H1 H2).
Defined.

(** C4 as stated fails: a width above [sys.maxsize] is positive, and
    [islice] refuses it. *)
Lemma windows_width_above_maxsize :
  1 ≤ 9223372036854775808
  ∧ windows [1; 162; 26; 19; 0] 9223372036854775808 = Raise ValueError.
Proof. split; [lia | reflexivity]. Qed.

Lemma windows_fails_only_out_of_range_witness :
  (windows [1; 162; 26; 19; 0] (-1) = Raise ValueError
   ∧ ValueError = ValueError ∧ (-1 ≤ 0 ∨ sys_maxsize < -1))
  ∧ 1 ≤ 7 ≤ sys_maxsize
  ∧ ∃ r : list (list Z), windows [1; 162; 26; 19; 0] 7 = Ok r.
Proof.
  assert (H1 : windows [1; 162; 26; 19; 0] (-1) = Raise ValueError)
    by reflexivity.
  assert (H2 : 1 ≤ 7 ≤ sys_maxsize) by (unfold sys_maxsize; lia).
  split; [split; [exact H1 |] | split; [exact H2 |]].
  - exact (proj1 (windows_fails_only_out_of_range [1; 162; 26; 19; 0] (-1))
             ValueError H1).
  - exact (proj2 (windows_fails_only_out_of_range [1; 162; 26; 19; 0] 7) H2).
Defined.

(** C8 as stated fails: for a width above [sys.maxsize] the sequence is
    shorter than the width, and an error is raised. *)
Lemma windows_short_above_maxsize :
  1 ≤ 9223372036854775808
  ∧ Z.of_nat (length [162; 26]) < 9223372036854775808
  ∧ windows [162; 26] 9223372036854775808 = Raise ValueError.
Proof. split; [lia |]. split; [cbn; lia | reflexivity]. Qed.

Lemma windows_first_then_slide_witness :
  (1 ≤ 3 ≤ sys_maxsize
   ∧ windows [1; 162; 26; 19; 0] 3
     = Ok [[1; 162; 26]; [162; 26; 19]; [26; 19; 0]]
   ∧ ∃ r : list (list Z),
       windows [1; 162; 26; 19; 0] 3 = Ok r
       ∧ r !! 0%nat = Some (take (Z.to_nat 3) [1; 162; 26; 19; 0])
       ∧ (∀ (i : nat) (w w' : list Z),
            r !! i = Some w → r !! S i = Some w' →
            ∃ e : Z, [1; 162; 26; 19; 0] !! (Z.to_nat 3 + i)%nat = Some e
                     ∧ w' = tail w ++ [e])
       ∧ length r = S (length [1; 162; 26; 19; 0] - Z.to_nat 3)
       ∧ (Z.of_nat (length [1; 162; 26; 19; 0]) < 3
          → r = [[1; 162; 26; 19; 0]]))
  ∧ (1 ≤ 3 ≤ sys_maxsize
     ∧ Z.of_nat (length [1; 162]) < 3
     ∧ windows [1; 162] 3 = Ok [[1; 162]]
     ∧ ∃ r : list (list Z),
         windows [1; 162] 3 = Ok r
         ∧ r !! 0%nat = Some (take (Z.to_nat 3) [1; 162])
         ∧ (∀ (i : nat) (w w' : list Z),
              r !! i = Some w → r !! S i = Some w' →
              ∃ e : Z, [1; 162] !! (Z.to_nat 3 + i)%nat = Some e
                       ∧ w' = tail w ++ [e])
         ∧ length r = S (length [1; 162] - Z.to_nat 3)
         ∧ (Z.of_nat (length [1; 162]) < 3 → r = [[1; 162]])).
Proof.
  assert (H : 1 ≤ 3 ≤ sys_maxsize) by (unfold sys_maxsize; lia).
  split.
  - split; [exact H |]. split; [reflexivity |].
    exact (windows_first_then_slide [1; 162; 26; 19; 0] 3 H).
  - split; [exact H |]. split; [cbn; lia |]. split; [reflexivity |].
    exact (windows_first_then_slide [1; 162] 3 H).
Defined.

Lemma windows_nth_slice_witness :
  1 ≤ 3
  ∧ windows [1; 162; 26; 19; 0] 3
    = Ok [[1; 162; 26]; [162; 26; 19]; [26; 19; 0]]
  ∧ [[1; 162; 26]; [162; 26; 19]; [26; 19; 0]] !! 1%nat = Some [162; 26; 19]
  ∧ [162; 26; 19] = take (Z.to_nat 3) (drop 1 [1; 162; 26; 19; 0]).
Proof.
  assert (H1 : 1 ≤ 3) by lia.
  assert (H2 : windows [1; 162; 26; 19; 0] 3
               = Ok [[1; 162; 26]; [162; 26; 19]; [26; 19; 0]])
    by reflexivity.
  assert (H3 : [[1; 162; 26]; [162; 26; 19]; [26; 19; 0]] !! 1%nat
               = Some [162; 26; 19]) by reflexivity.
  split; [exact H1 |]. split; [exact H2 |]. split; [exact H3 |].
  exact (windows_nth_slice _ _ _ _ _ H1 H2 H3).
Defined.

Lemma windows_recover_witness :
  1 ≤ 3 ≤ sys_maxsize
  ∧ ∃ (w0 : list Z) (ws : list (list Z)) (xs : list Z),
      windows [1; 162; 26; 19; 0] 3 = Ok (w0 :: ws)
      ∧ last <$> ws = Some <$> xs
      ∧ [1; 162; 26; 19; 0] = w0 ++ xs.
Proof.
  assert (H : 1 ≤ 3 ≤ sys_maxsize) by (unfold sys_maxsize; lia).
  split; [exact H |]. exact (windows_recover [1; 162; 26; 19; 0] 3 H).
Defined.

(** ** The dictionary *)

Lemma vocabulary_unique_increasing_stable_witness :
  corpus_words example_corpus
  = [str "destroy"; str "target"; str "creature"; str "~"] ++ str "deals" ::
    [str "2"; str "damage"; str "to"; str "any"; str "target"]
  ∧ ∃ i1 i2 : Z,
      bag_of_words example_corpus !! str "target" = Some i1
      ∧ bag_of_words example_corpus !! str "deals" = Some i2
      ∧ i1 < i2.
Proof.
  split; [reflexivity |].
  apply (proj1 (proj2 (proj2
           (vocabulary_unique_increasing_stable example_corpus)))
           [str "destroy"; str "target"; str "creature"; str "~"]
           [str "2"; str "damage"; str "to"; str "any"; str "target"]).
  - reflexivity.
  - apply list_elem_of_In. cbn. auto.
  - intros H%list_elem_of_In. vm_compute in H. intuition discriminate.
  - discriminate.
  - discriminate.
Defined.

Lemma sentinels_keep_ids_witness :
  bag_of_words example_corpus !! str "target" = Some 3
  ∧ (3 = 0 ↔ str "target" = rpad) ∧ (3 = 1 ↔ str "target" = lpad).
Proof.
  assert (H : bag_of_words example_corpus !! str "target" = Some 3)
    by (vm_compute; reflexivity).
  split; [exact H |].
  exact (proj1 (proj2 (proj2 (sentinels_keep_ids example_corpus))) _ _ H).
Defined.

Lemma scan_known_corpus_witness :
  (∀ w, w ∈ corpus_words
              [(str "Terror", [str "destroy"; str "target"; str "<lpad>"])] →
        w = rpad ∨ w = lpad ∨ w ∈ corpus_words example_corpus)
  ∧ scan scan_init
      (example_corpus
       ++ [(str "Terror", [str "destroy"; str "target"; str "<lpad>"])])
    = scan scan_init example_corpus.
Proof.
  assert (H : ∀ w,
    w ∈ corpus_words
          [(str "Terror", [str "destroy"; str "target"; str "<lpad>"])] →
    w = rpad ∨ w = lpad ∨ w ∈ corpus_words example_corpus).
  { intros w Hw%list_elem_of_In. vm_compute in Hw.
    destruct Hw as [<- | [<- | [<- | []]]].
    - right. right. apply list_elem_of_In. vm_compute. auto.
    - right. right. apply list_elem_of_In. vm_compute. auto.
    - right. left. reflexivity. }
  split; [exact H |]. exact (scan_known_corpus _ _ H).
Defined.

(** ** The tokenizer *)

(** C3 as stated fails: the placeholder of the card name is no
    alphanumeric character, and it is a token. *)
Lemma clean_oracle_text_tilde :
  has_alnum (str "~") = false ∧ clean_oracle_text (str "~") = [str "~"].
Proof. split; vm_compute; reflexivity. Qed.

Lemma clean_oracle_text_blank_witness :
  has_alnum (str ".,:; !?") = false
  ∧ has_kept_symbol (str ".,:; !?") = false
  ∧ clean_oracle_text (str ".,:; !?") = [].
Proof.
  assert (H1 : has_alnum (str ".,:; !?") = false) by (vm_compute; reflexivity).
  assert (H2 : has_kept_symbol (str ".,:; !?") = false)
    by (vm_compute; reflexivity).
  split; [exact H1 |]. split; [exact H2 |].
  exact (clean_oracle_text_blank _ H1 H2).
Defined.



Lemma clean_oracle_text_brace_last_witness :
  str "{t}" ∈ clean_oracle_text (str "{T}{G}: Add two mana.")
  ∧ str "{t}" = str "{t" ++ ord "}" :: []
  ∧ @nil N = [].
Proof.
  assert (H1 : str "{t}" ∈ clean_oracle_text (str "{T}{G}: Add two mana.")).
  { apply list_elem_of_In. vm_compute. auto. }
  assert (H2 : str "{t}" = str "{t" ++ ord "}" :: []) by reflexivity.
  split; [exact H1 |]. split; [exact H2 |].
  exact (clean_oracle_text_brace_last _ _ _ _ H1 H2).
Defined.

(** A Latin-1 text with letters outside ASCII: [Straße ÀÉ (x) {T}: ñ²]. *)
Lemma clean_oracle_text_concat_witness :
  latin1 (str "Stra" ++ 223%N :: str "e " ++ 192%N :: 201%N
          :: str " (x) {T}: " ++ [241; 178]%N)
  ∧ clean_oracle_text (str "Stra" ++ 223%N :: str "e " ++ 192%N :: 201%N
                       :: str " (x) {T}: " ++ [241; 178]%N)
    = [str "stra" ++ 223%N :: str "e"; [224; 233]%N; str "{t}"; [241; 178]%N]
  ∧ mjoin (clean_oracle_text
             (str "Stra" ++ 223%N :: str "e " ++ 192%N :: 201%N
              :: str " (x) {T}: " ++ [241; 178]%N))
    = lower (List.filter is_word_char
               (remove_parentheses
                  (str "Stra" ++ 223%N :: str "e " ++ 192%N :: 201%N
                   :: str " (x) {T}: " ++ [241; 178]%N))).
Proof.
  assert (H : latin1 (str "Stra" ++ 223%N :: str "e " ++ 192%N :: 201%N
                      :: str " (x) {T}: " ++ [241; 178]%N))
    by (apply latin1_check; reflexivity).
  split; [exact H |]. split; [vm_compute; reflexivity |].
  exact (clean_oracle_text_concat _ H).
Defined.

Lemma clean_oracle_text_lower_witness :
  latin1 (str "DESTROY " ++ 192%N :: 201%N :: str " (X) {T}.")
  ∧ lower (str "DESTROY " ++ 192%N :: 201%N :: str " (X) {T}.")
    = str "destroy " ++ 224%N :: 233%N :: str " (x) {t}."
  ∧ clean_oracle_text
      (lower (str "DESTROY " ++ 192%N :: 201%N :: str " (X) {T}."))
    = clean_oracle_text (str "DESTROY " ++ 192%N :: 201%N :: str " (X) {T}.").
Proof.
  assert (H : latin1 (str "DESTROY " ++ 192%N :: 201%N :: str " (X) {T}."))
    by (apply latin1_check; reflexivity).
  split; [exact H |]. split; [vm_compute; reflexivity |].
  exact (clean_oracle_text_lower _ H).
Defined.

Lemma clean_oracle_text_stable_witness :
  latin1 (str "{T}{G}: Add (two) mana.")
  ∧ join_space (clean_oracle_text (str "{T}{G}: Add (two) mana."))
    = str "{t} {g} add mana"
  ∧ clean_oracle_text
      (join_space (clean_oracle_text (str "{T}{G}: Add (two) mana.")))
    = clean_oracle_text (str "{T}{G}: Add (two) mana.").
Proof.
  assert (H : latin1 (str "{T}{G}: Add (two) mana."))
    by (apply latin1_check; reflexivity).
  split; [exact H |]. split; [vm_compute; reflexivity |].
  exact (clean_oracle_text_stable _ H).
Defined.

(** ** The vectorizer *)

Lemma vectorize_ids_or_key_error_witness :
  example_bag !! lpad = Some 1
  ∧ example_bag !! rpad = Some 0
  ∧ vectorize example_bag (str "Destroy target creature.")
    = Ok [1; 2; 3; 4; 0]
  ∧ ∃ ids : list Z,
      Forall2 (fun w i => example_bag !! w = Some i)
        (clean_oracle_text (str "Destroy target creature.")) ids
      ∧ vectorize example_bag (str "Destroy target creature.")
        = Ok ([1] ++ ids ++ [0]).
Proof.
  assert (Hl : example_bag !! lpad = Some 1) by (vm_compute; reflexivity).
  assert (Hr : example_bag !! rpad = Some 0) by (vm_compute; reflexivity).
  split; [exact Hl |]. split; [exact Hr |].
  split; [vm_compute; reflexivity |].
  apply (proj1 (vectorize_ids_or_key_error example_bag
                  (str "Destroy target creature.") Hl Hr)).
  intros w Hw%list_elem_of_In. vm_compute in Hw.
  destruct Hw as [<- | [<- | [<- | []]]];
    [exists 2 | exists 3 | exists 4]; vm_compute; reflexivity.
Defined.

Lemma vectorize_first_missing_witness :
  example_bag !! lpad = Some 1
  ∧ example_bag !! rpad = Some 0
  ∧ vectorize example_bag (str "Destroy all creatures.")
    = Raise (KeyError (str "all")).
Proof.
  assert (Hl : example_bag !! lpad = Some 1) by (vm_compute; reflexivity).
  assert (Hr : example_bag !! rpad = Some 0) by (vm_compute; reflexivity).
  split; [exact Hl |]. split; [exact Hr |].
  apply (proj2 (vectorize_first_missing example_bag
                  (str "Destroy all creatures.") (KeyError (str "all"))
                  Hl Hr)).
  exists [str "destroy"], (str "all"), [str "creatures"].
  split; [vm_compute; reflexivity |]. split; [| split].
  - constructor; [| constructor]. exists 2. vm_compute. reflexivity.
  - vm_compute. reflexivity.
  - reflexivity.
Defined.

Lemma vectorize_corpus_text_witness :
  (str "Murder", clean_oracle_text (str "Destroy target creature."))
    ∈ [(str "Murder", clean_oracle_text (str "Destroy target creature."))]
  ∧ ∃ ids,
      vectorize
        (bag_of_words
           [(str "Murder",
             clean_oracle_text (str "Destroy target creature."))])
        (str "Destroy target creature.")
      = Ok ([1] ++ ids ++ [0]).
Proof.
  assert (H : (str "Murder",
               clean_oracle_text (str "Destroy target creature."))
              ∈ [(str "Murder",
                  clean_oracle_text (str "Destroy target creature."))])
    by apply list_elem_of_here.
  split; [exact H |]. exact (vectorize_corpus_text _ _ _ H).
Defined.

Lemma vectorize_shape_witness :
  vectorize (bag_of_words example_corpus)
    (str "~ deals 2 damage to any target.")
  = Ok [1; 5; 6; 7; 8; 9; 10; 3; 0]
  ∧ ∃ ids,
      [1; 5; 6; 7; 8; 9; 10; 3; 0] = [1] ++ ids ++ [0]
      ∧ length ids
        = length (clean_oracle_text (str "~ deals 2 damage to any target."))
      ∧ Forall (fun i => 2 ≤ i) ids.
Proof.
  assert (H : vectorize (bag_of_words example_corpus)
                (str "~ deals 2 damage to any target.")
              = Ok [1; 5; 6; 7; 8; 9; 10; 3; 0]) by (vm_compute; reflexivity).
  split; [exact H |]. exact (vectorize_shape _ _ _ H).
Defined.

Lemma vectorize_injective_witness :
  vectorize (bag_of_words example_corpus) (str "Destroy target creature.")
  = Ok [1; 2; 3; 4; 0]
  ∧ vectorize (bag_of_words example_corpus)
      (str "DESTROY, target (really) creature!")
    = Ok [1; 2; 3; 4; 0]
  ∧ clean_oracle_text (str "Destroy target creature.")
    = clean_oracle_text (str "DESTROY, target (really) creature!").
Proof.
  assert (H1 : vectorize (bag_of_words example_corpus)
                 (str "Destroy target creature.") = Ok [1; 2; 3; 4; 0])
    by (vm_compute; reflexivity).
  assert (H2 : vectorize (bag_of_words example_corpus)
                 (str "DESTROY, target (really) creature!")
               = Ok [1; 2; 3; 4; 0])
    by (vm_compute; reflexivity).
  split; [exact H1 |]. split; [exact H2 |].
  exact (vectorize_injective _ _ _ _ H1 H2).
Defined.

Lemma windows_of_vectorize_witness :
  example_bag !! lpad = Some 1
  ∧ example_bag !! rpad = Some 0
  ∧ 1 ≤ 3 ≤ sys_maxsize
  ∧ vectorize example_bag (str "Destroy target creature.")
    = Ok [1; 2; 3; 4; 0]
  ∧ ∃ (r : list (list Z)) (first final : list Z),
      windows [1; 2; 3; 4; 0] 3 = Ok r
      ∧ head r = Some first ∧ head first = Some 1
      ∧ last r = Some final ∧ last final = Some 0.
Proof.
  assert (Hl : example_bag !! lpad = Some 1) by (vm_compute; reflexivity).
  assert (Hr : example_bag !! rpad = Some 0) by (vm_compute; reflexivity).
  assert (Hn : 1 ≤ 3 ≤ sys_maxsize) by (unfold sys_maxsize; lia).
  assert (Hv : vectorize example_bag (str "Destroy target creature.")
               = Ok [1; 2; 3; 4; 0]) by (vm_compute; reflexivity).
  split; [exact Hl |]. split; [exact Hr |]. split; [exact Hn |].
  split; [exact Hv |].
  exact (windows_of_vectorize _ _ _ _ Hl Hr Hn Hv).
Defined.

(** ** Parenthesised spans *)

Lemma remove_parentheses_no_span_witness :
  remove_parentheses (str "a)b(c)d(e") = str "a)bd" ++ ord "(" :: str "e"
  ∧ (ord ")" ∉ str "e").
Proof.
  assert (H : remove_parentheses (str "a)b(c)d(e")
              = str "a)bd" ++ ord "(" :: str "e")
    by (vm_compute; reflexivity).
  split; [exact H |]. exact (remove_parentheses_no_span _ _ _ H).
Defined.

Lemma remove_parentheses_without_witness :
  (ord "(" ∉ str "Flying) haste" ∨ ord ")" ∉ str "Flying) haste")
  ∧ remove_parentheses (str "Flying) haste") = str "Flying) haste".
Proof.
  assert (H : ord "(" ∉ str "Flying) haste" ∨ ord ")" ∉ str "Flying) haste").
  { left. intros Hin%list_elem_of_In. vm_compute in Hin.
    repeat destruct Hin as [Hin | Hin]; try discriminate Hin. exact Hin. }
  split; [exact H |]. exact (remove_parentheses_without _ H).
Defined.

Lemma remove_parentheses_first_span_witness :
  (ord "(" ∉ str "Flying) ")
  ∧ (ord ")" ∉ str "reach (this")
  ∧ remove_parentheses
      (str "Flying) " ++ ord "(" :: str "reach (this"
       ++ ord ")" :: str " too) haste")
    = str "Flying) " ++ remove_parentheses (str " too) haste").
Proof.
  assert (H1 : ord "(" ∉ str "Flying) ").
  { intros Hin%list_elem_of_In. vm_compute in Hin.
    repeat destruct Hin as [Hin | Hin]; try discriminate Hin. exact Hin. }
  assert (H2 : ord ")" ∉ str "reach (this").
  { intros Hin%list_elem_of_In. vm_compute in Hin.
    repeat destruct Hin as [Hin | Hin]; try discriminate Hin. exact Hin. }
  split; [exact H1 |]. split; [exact H2 |].
  exact (remove_parentheses_first_span _ _ _ H1 H2).
Defined.

(** ** The corpus *)

Lemma str_replace_name_gone_witness :
  str "Shock" ≠ []
  ∧ (ord "~" ∉ str "Shock")
  ∧ str_replace (str "Shock") (str "~") (str "Shock deals 2 damage. Shock!")
    ≠ str "~ deals 2 damage. " ++ str "Shock" ++ str "!".
Proof.
  assert (H1 : str "Shock" ≠ []) by discriminate.
  assert (H2 : ord "~" ∉ str "Shock").
  { intros Hin%list_elem_of_In. vm_compute in Hin.
    repeat destruct Hin as [Hin | Hin]; try discriminate Hin. exact Hin. }
  split; [exact H1 |]. split; [exact H2 |].
  exact (str_replace_name_gone _ _ _ _ H1 H2).
Defined.

Lemma vectorize_card_witness :
  (str "Shock", Some (str "Shock deals 2 damage to any target."))
    ∈ example_data
  ∧ ∃ ids,
      vectorize (bag_of_words (cleaned example_data))
        (str_replace (str "Shock") (str "~")
           (str "Shock deals 2 damage to any target."))
      = Ok ([1] ++ ids ++ [0]).
Proof.
  assert (H : (str "Shock", Some (str "Shock deals 2 damage to any target."))
              ∈ example_data) by apply list_elem_of_here.
  split; [exact H |]. exact (vectorize_card _ _ _ H).
Defined.

Lemma bag_of_cards_entries_witness :
  bag_of_words (cleaned example_data) !! str "deals" = Some 3
  ∧ (∀ name text, (name, Some text) ∈ example_data → latin1 text)
  ∧ (str "deals" = rpad ∧ 3 = 0
     ∨ str "deals" = lpad ∧ 3 = 1
     ∨ 2 ≤ 3 ∧ str "deals" ≠ []
       ∧ (∀ c, c ∈ str "deals" → isspace c = false)
       ∧ ((∀ name text, (name, Some text) ∈ example_data → latin1 text) →
          ∀ c, c ∈ str "deals" → token_char c = true)).
Proof.
  assert (H : bag_of_words (cleaned example_data) !! str "deals" = Some 3)
    by (vm_compute; reflexivity).
  assert (Hl : ∀ name text, (name, Some text) ∈ example_data → latin1 text).
  { intros name text Hin%list_elem_of_In. vm_compute in Hin.
    destruct Hin as [Hin | [Hin | [Hin | []]]]; try discriminate Hin;
      injection Hin as _ <-; apply latin1_check; reflexivity. }
  split; [exact H |]. split; [exact Hl |].
  exact (bag_of_cards_entries _ _ _ H).
Defined.
